(** * Validated payload objects of the WhatsApp client SDK

    A shallow embedding of [src/messages/interactive.ts] and
    [src/messages/location.ts], and of the constructor, the webhooks and the
    media upload of the client in [src/index.ts].

    Conventions of the embedding.
    - A JavaScript string is a [string]; one character stands for one UTF-16
      code unit, so [String.length] is the [.length] of the source.
    - A constructor that can [throw new Error(msg)] returns a [result]: the
      instance, or the message of the error.
    - A constructor that writes to the object it receives ([delete action._],
      [delete object._]) is a computation in [Ctor S]: it is run on the
      caller's object and returns, next to its outcome, that object as the
      caller finds it afterwards.  A thrown error keeps the writes made before
      it.  The instance stores a reference to the argument, so the stored value
      is the argument as it is after the call.
    - An optional field ([title?: string]) is an [option]: [None] when it
      holds no value.  Whether a field that is declared in the class body and
      holds no value is an own property of the instance depends on how the
      class is compiled, which the sources do not say: it is the parameter
      [ClassFields] of the two constructors that ask for the own property
      [title].  Objects whose keys are computed at run time
      ([this[object._] = ...]) and the media objects, which are probed with
      [hasOwnProperty], are finite maps from property names. *)

From Stdlib Require Import Ascii String Floats.SpecFloat.
From stdpp Require Import base option list strings gmap pretty.

Open Scope string_scope.

(** ** JavaScript values and control *)

Inductive result (A : Type) : Type :=
| Ok (a : A)
| Throw (msg : string).
Arguments Ok {A} a.
Arguments Throw {A} msg.

Definition is_ok {A} (r : result A) : bool :=
  match r with Ok _ => true | Throw _ => false end.

Definition rbind {A B} (r : result A) (k : A -> result B) : result B :=
  match r with
  | Ok a => k a
  | Throw msg => Throw msg
  end.

(** [if (c) throw new Error(msg)] *)
Definition throw_if (c : bool) (msg : string) : result unit :=
  if c then Throw msg else Ok tt.

Notation "c1 ;;; c2" := (rbind c1 (fun _ => c2))
  (at level 100, right associativity).

(** Truthiness of a string: every string but the empty one. *)
Definition truthy (s : string) : bool :=
  match s with
  | EmptyString => false
  | String _ _ => true
  end.

(** [s.length > n] *)
Definition longer_than (s : string) (n : nat) : bool :=
  Nat.ltb n (String.length s).

(** [o && o.length > n] for a string that may be [undefined] *)
Definition longer_than_opt (o : option string) (n : nat) : bool :=
  match o with
  | Some s => truthy s && longer_than s n
  | None => false
  end.

(** [if (o) this.f = o]: the property is set only for a truthy string. *)
Definition keep_truthy (o : option string) : option string :=
  match o with
  | Some s => if truthy s then Some s else None
  | None => None
  end.

(** [/^ | $/.test(s)].  The pattern has two alternatives and no flag: a space
    at the start of the input, or a space at its end. *)
Definition starts_with_space (s : string) : bool :=
  match s with
  | String c _ => Ascii.eqb c " "%char
  | EmptyString => false
  end.

Fixpoint ends_with_space (s : string) : bool :=
  match s with
  | EmptyString => false
  | String c EmptyString => Ascii.eqb c " "%char
  | String _ rest => ends_with_space rest
  end.

Definition edge_space_test (s : string) : bool :=
  starts_with_space s || ends_with_space s.

(** [new Set(xs).size] *)
Definition set_size (xs : list string) : nat :=
  size (list_to_set xs : gset string).

(** ** Declared class fields *)

(** What a field that a class body declares without a value, as in
    [title?: string], leaves on an instance.
    - [DefinedFields]: the field is defined when the instance is created, with
      the value [undefined], and is an own property from then on.  This is the
      class as it runs once its types are erased, and as the compiler writes
      it under [useDefineForClassFields].
    - [AssignedFields]: the declaration leaves nothing on the instance, and
      the property is there once the constructor has assigned it.  This is the
      older output of the compiler. *)
Inductive ClassFields :=
| DefinedFields
| AssignedFields.

(** [Object.prototype.hasOwnProperty.call(obj, "title")], on an instance of
    ListSection or of ProductSection whose field holds [title]. *)
Definition has_own_title (fields : ClassFields) (title : option string)
  : bool :=
  match fields with
  | DefinedFields => true
  | AssignedFields => bool_decide (is_Some title)
  end.

(** ** Body, Footer *)

Record Body := { Body_text : string }.

Definition new_Body (text : string) : result Body :=
  throw_if (negb (truthy text)) "Body must have a text object" ;;;
  throw_if (longer_than text 1024)
    "Body text must be less than 1024 characters" ;;;
  Ok {| Body_text := text |}.

Record Footer := { Footer_text : string }.

Definition new_Footer (text : string) : result Footer :=
  throw_if (negb (truthy text)) "Footer must have a text object" ;;;
  throw_if (longer_than text 60)
    "Footer text must be 60 characters or less" ;;;
  Ok {| Footer_text := text |}.

(** ** Button, ActionButtons *)

(** The literal type ["reply"] of [Button.type]. *)
Inductive ButtonType := reply.

Record Reply := { Reply_title : string; Reply_id : string }.

Record Button := { Button_type : ButtonType; Button_reply : Reply }.

Definition new_Button (id title : string) : result Button :=
  throw_if (negb (truthy id)) "Button must have an id" ;;;
  throw_if (longer_than id 256)
    "Button id must be 256 characters or less" ;;;
  throw_if (edge_space_test id)
    "Button id cannot have leading or trailing spaces" ;;;
  throw_if (negb (truthy title)) "Button must have a title" ;;;
  throw_if (longer_than title 20)
    "Button title must be 20 characters or less" ;;;
  Ok {| Button_type := reply;
        Button_reply := {| Reply_title := title; Reply_id := id |} |}.

(** [b[b.type]] *)
Definition Button_at_type (b : Button) : Reply :=
  match Button_type b with
  | reply => Button_reply b
  end.

Record ActionButtons := {
  ActionButtons_buttons : list Button;
  ActionButtons_tag : option string   (* the field [_] *)
}.

Definition new_ActionButtons (button : list Button) : result ActionButtons :=
  throw_if (Nat.eqb (length button) 0 || Nat.ltb 3 (length button))
    "Reply buttons must have between 1 and 3 buttons" ;;;
  let ids := map (fun b => Reply_id (Button_at_type b)) button in
  throw_if (negb (Nat.eqb (length ids) (set_size ids)))
    "Reply buttons must have unique ids" ;;;
  let titles := map (fun b => Reply_title (Button_at_type b)) button in
  throw_if (negb (Nat.eqb (length titles) (set_size titles)))
    "Reply buttons must have unique titles" ;;;
  Ok {| ActionButtons_buttons := button; ActionButtons_tag := Some "button" |}.

(** ** Row, ListSection, ActionList *)

Record Row := {
  Row_id : string;
  Row_title : string;
  Row_description : option string
}.

Definition new_Row (id title : string) (description : option string)
  : result Row :=
  throw_if (negb (truthy id)) "Row must have an id" ;;;
  throw_if (longer_than id 200) "Row id must be 200 characters or less" ;;;
  throw_if (negb (truthy title)) "Row must have a title" ;;;
  throw_if (longer_than title 24)
    "Row title must be 24 characters or less" ;;;
  throw_if (longer_than_opt description 72)
    "Row description must be 72 characters or less" ;;;
  Ok {| Row_id := id; Row_title := title;
        Row_description := keep_truthy description |}.

Record ListSection := {
  ListSection_rows : list Row;
  ListSection_title : option string
}.

Definition new_ListSection (title : option string) (rows : list Row)
  : result ListSection :=
  throw_if (longer_than_opt title 24)
    "Section title must be 24 characters or less" ;;;
  throw_if (Nat.eqb (length rows) 0 || Nat.ltb 10 (length rows))
    "Section must have between 1 and 10 rows" ;;;
  Ok {| ListSection_rows := rows; ListSection_title := keep_truthy title |}.

Record ActionList := {
  ActionList_button : string;
  ActionList_sections : list ListSection;
  ActionList_tag : option string   (* the field [_] *)
}.

Definition new_ActionList (fields : ClassFields) (button : string)
    (sections : list ListSection) : result ActionList :=
  throw_if (negb (truthy button)) "Action must have a button content" ;;;
  throw_if (longer_than button 20)
    "Button content must be 20 characters or less" ;;;
  throw_if (Nat.eqb (length sections) 0 || Nat.ltb 10 (length sections))
    "Action must have between 1 and 10 sections" ;;;
  throw_if (Nat.ltb 1 (length sections)
            && negb (forallb (fun obj => has_own_title fields
                                           (ListSection_title obj)) sections))
    "All sections must have a title if more than 1 section is provided" ;;;
  Ok {| ActionList_button := button; ActionList_sections := sections;
        ActionList_tag := Some "list" |}.

(** ** Product, ProductSection, ActionCatalog *)

Record Product := { Product_product_retailer_id : string }.

Definition new_Product (product_retailer_id : string) : result Product :=
  throw_if (negb (truthy product_retailer_id))
    "Product must have a product_retailer_id" ;;;
  Ok {| Product_product_retailer_id := product_retailer_id |}.

Record ProductSection := {
  ProductSection_title : option string;
  ProductSection_product_items : list Product
}.

Definition new_ProductSection (title : option string) (products : list Product)
  : result ProductSection :=
  throw_if (longer_than_opt title 24)
    "Section title must be 24 characters or less" ;;;
  throw_if (Nat.eqb (length products) 0 || Nat.ltb 30 (length products))
    "Section must have between 1 and 30 products" ;;;
  Ok {| ProductSection_title := keep_truthy title;
        ProductSection_product_items := products |}.

(** An argument of type [Product | ProductSection]; the constructor tells
    the two apart with [instanceof]. *)
Inductive CatalogItem :=
| AProduct (p : Product)
| ASection (s : ProductSection).

Record ActionCatalog := {
  ActionCatalog_catalog_id : string;
  ActionCatalog_product_retailer_id : option string;
  ActionCatalog_sections : option (list CatalogItem);
  ActionCatalog_tag : option string   (* the field [_] *)
}.

(** [first_product instanceof Product], for [first_product = products[0]] *)
Definition first_is_Product (products : list CatalogItem) : option Product :=
  match products with
  | AProduct p :: _ => Some p
  | _ => None
  end.

(** The loop [for (const obj of products)]: it throws at the first element
    that is not a ProductSection, or that has no own property [title]. *)
Fixpoint each_is_titled_section (fields : ClassFields)
    (products : list CatalogItem) : result unit :=
  match products with
  | [] => Ok tt
  | obj :: rest =>
      match obj with
      | AProduct _ => Throw "Catalog must have only ProductSection objects"
      | ASection s =>
          throw_if (negb (has_own_title fields (ProductSection_title s)))
            "All sections must have a title if more than 1 section is provided" ;;;
          each_is_titled_section fields rest
      end
  end.

Definition new_ActionCatalog (fields : ClassFields) (catalog_id : string)
    (products : list CatalogItem) : result ActionCatalog :=
  throw_if (negb (truthy catalog_id)) "Catalog must have a catalog id" ;;;
  throw_if (Nat.eqb (length products) 0)
    "Catalog must have at least one product or product section" ;;;
  let first_product := first_is_Product products in
  let is_single_product := bool_decide (is_Some first_product) in
  (if is_single_product && Nat.ltb 1 (length products)
   then Throw "Catalog must have only 1 product, use a ProductSection instead"
   else
     throw_if (Nat.ltb 10 (length products))
       "Catalog must have between 1 and 10 product sections" ;;;
     if Nat.ltb 1 (length products)
     then each_is_titled_section fields products
     else Ok tt) ;;;
  Ok {| ActionCatalog_catalog_id := catalog_id;
        ActionCatalog_product_retailer_id :=
          Product_product_retailer_id <$> first_product;
        ActionCatalog_sections :=
          if is_single_product then None else Some products;
        ActionCatalog_tag :=
          Some (if is_single_product then "product" else "product_list") |}.

(** ** Constructors that write to their argument *)

Definition Ctor (S A : Type) : Type := S -> result A * S.

Definition cret {S A} (a : A) : Ctor S A := fun s => (Ok a, s).

Definition cthrow {S A} (msg : string) : Ctor S A := fun s => (Throw msg, s).

Definition cbind {S A B} (m : Ctor S A) (k : A -> Ctor S B) : Ctor S B :=
  fun s =>
    match m s with
    | (Ok a, s') => k a s'
    | (Throw msg, s') => (Throw msg, s')
    end.

(** Reading the argument, and writing to it. *)
Definition cget {S} : Ctor S S := fun s => (Ok s, s).

Definition cmodify {S} (f : S -> S) : Ctor S unit := fun s => (Ok tt, f s).

Definition cthrow_if {S} (c : bool) (msg : string) : Ctor S unit :=
  if c then cthrow msg else cret tt.

Notation "'do' x <- m ; k" := (cbind m (fun x => k))
  (at level 10, x name, m at level 100, k at level 200).
Notation "'run' m ; k" := (cbind m (fun _ => k))
  (at level 10, m at level 100, k at level 200).

(** [if (!x) throw new Error(msg)] on an argument that may be [undefined],
    then the rest of the constructor on the object. *)
Definition on_defined {S A} (msg : string) (rest : Ctor S A)
  : Ctor (option S) A :=
  fun x =>
    match x with
    | None => (Throw msg, None)
    | Some s => let '(r, s') := rest s in (r, Some s')
    end.

(** [if (!x._) throw new Error(msg)], giving [x._] otherwise. *)
Definition defined_tag (tag : option string) (msg : string) : result string :=
  match tag with
  | Some t => if truthy t then Ok t else Throw msg
  | None => Throw msg
  end.

Definition lift {S A} (r : result A) : Ctor S A := fun s => (r, s).

(** ** Text and the media objects *)

(** Modelled from the spec: the class [Text] of [./text], which is not among
    the sources; the "text wrapper" of the spec, with the string [body] and
    the discriminant [_] that Header reads. *)
Record Text := {
  Text_body : string;
  Text_tag : option string   (* the field [_] *)
}.

(** Modelled from the spec: the classes [Image], [Video] and [Document] of
    [./media], which are not among the sources; a media object is the finite
    map of its own properties (the discriminant [_], and fields such as [id],
    [link], [caption], [filename]), all of them strings. *)
Abbreviation Media := (gmap string string).

(** The argument of Header; [object instanceof Text] is the first case. *)
Inductive HeaderObject :=
| OfText (t : Text)
| OfMedia (m : Media).

(** [object._] *)
Definition HeaderObject_tag (object : HeaderObject) : option string :=
  match object with
  | OfText t => Text_tag t
  | OfMedia m => m !! "_"
  end.

(** ** Header *)

(** The value of a property of Header: a string, or a media object. *)
Inductive HeaderValue :=
| HString (s : string)
| HMedia (m : Media).

(** A Header instance, as the finite map of its own properties: [type], and
    the one stored under the computed key. *)
Abbreviation Header := (gmap string HeaderValue).

(** [["text", "video", "image", "document"].includes(tag)] *)
Definition header_types : list string := ["text"; "video"; "image"; "document"].

Definition new_Header : Ctor (option HeaderObject) Header :=
  on_defined "Header must have an object" (
    do object <- cget;
    do tag <- lift (defined_tag (HeaderObject_tag object)
                      "Unexpected internal error (object._ is not defined)");
    run cthrow_if (negb (bool_decide (tag ∈ header_types)))
         "Header object must be either Text, Video, Image or Document.";
    let this : Header := {[ "type" := HString tag ]} in
    match object with
    | OfText t =>
        run cthrow_if (longer_than (Text_body t) 60)
             "Header text must be 60 characters or less";
        cret (<[ tag := HString (Text_body t) ]> this)
    | OfMedia m =>
        let m' := delete "_" m in
        run cmodify (fun _ => OfMedia m');
        run cthrow_if (bool_decide (is_Some (m' !! "caption")))
             ("Header " ++ tag ++ " must not have a caption");
        cret (<[ tag := HMedia m' ]> this)
    end).

(** [header?.type !== "text"] *)
Definition header_type_is_not_text (header : option Header) : bool :=
  match header with
  | Some h =>
      match h !! "type" with
      | Some (HString t) => negb (String.eqb t "text")
      | _ => true
      end
  | None => true
  end.

(** ** Interactive *)

(** The argument [action: ActionList | ActionButtons | ActionCatalog]. *)
Inductive Action :=
| OfActionList (a : ActionList)
| OfActionButtons (a : ActionButtons)
| OfActionCatalog (a : ActionCatalog).

(** [action._] *)
Definition Action_tag (action : Action) : option string :=
  match action with
  | OfActionList a => ActionList_tag a
  | OfActionButtons a => ActionButtons_tag a
  | OfActionCatalog a => ActionCatalog_tag a
  end.

(** [delete action._] *)
Definition Action_delete_tag (action : Action) : Action :=
  match action with
  | OfActionList a =>
      OfActionList {| ActionList_button := ActionList_button a;
                      ActionList_sections := ActionList_sections a;
                      ActionList_tag := None |}
  | OfActionButtons a =>
      OfActionButtons {| ActionButtons_buttons := ActionButtons_buttons a;
                         ActionButtons_tag := None |}
  | OfActionCatalog a =>
      OfActionCatalog
        {| ActionCatalog_catalog_id := ActionCatalog_catalog_id a;
           ActionCatalog_product_retailer_id :=
             ActionCatalog_product_retailer_id a;
           ActionCatalog_sections := ActionCatalog_sections a;
           ActionCatalog_tag := None |}
  end.

Record Interactive := {
  Interactive_action : Action;
  Interactive_type : string;
  Interactive_body : option Body;
  Interactive_header : option Header;
  Interactive_footer : option Footer;
  Interactive_tag : option string   (* the field [_] *)
}.

Definition new_Interactive (body : option Body) (header : option Header)
    (footer : option Footer) : Ctor (option Action) Interactive :=
  on_defined "Interactive must have an action component" (
    do action <- cget;
    do tag <- lift (defined_tag (Action_tag action)
                      "Unexpected internal error (action._ is not defined)");
    run cthrow_if (negb (String.eqb tag "product") && negb (bool_decide (is_Some body)))
         "Interactive must have a body component";
    run cthrow_if (String.eqb tag "product" && bool_decide (is_Some header))
         "Interactive must not have a header component if action is a single product";
    run cthrow_if (String.eqb tag "product_list" && header_type_is_not_text header)
         "Interactive must have a Text header component if action is a product list";
    run cthrow_if (bool_decide (is_Some header) && negb (String.eqb tag "button")
                  && header_type_is_not_text header)
         "Interactive header must be of type Text";
    run cmodify Action_delete_tag;
    do action' <- cget;
    cret {| Interactive_type := tag;
            Interactive_action := action';
            Interactive_body := body;
            Interactive_header := header;
            Interactive_footer := footer;
            Interactive_tag := Some "interactive" |}).

(** ** Location *)

(** A JavaScript number: an IEEE 754 value, with its NaN, its two infinities
    and its two zeros. *)
Abbreviation number := spec_float.

Record Location := {
  Location_longitude : number;
  Location_latitude : number;
  Location_name : option string;
  Location_address : option string
}.

Section LocationConstructor.

(** The base class [ClientMessage] is declared in [../types], which is not
    among the sources: the outcome of its constructor, which [super()]
    calls without an argument, is a parameter. *)
Variable ClientMessage_super : result unit.

Definition new_Location (longitude latitude : number)
    (name address : option string) : result Location :=
  ClientMessage_super ;;;
  Ok {| Location_longitude := longitude;
        Location_latitude := latitude;
        Location_name := keep_truthy name;
        Location_address := keep_truthy address |}.

End LocationConstructor.

(** ** Vocabulary of the statements *)

Definition button_ids (button : list Button) : list string :=
  map (fun b => Reply_id (Button_reply b)) button.

Definition button_titles (button : list Button) : list string :=
  map (fun b => Reply_title (Button_reply b)) button.

Definition media_types : list string := ["image"; "video"; "document"].

(** A header is supplied and its [type] is "text". *)
Definition header_is_text (header : option Header) : Prop :=
  exists h, header = Some h /\ h !! "type" = Some (HString "text").

(** White space as a reader of "leading or trailing whitespace" takes it:
    the space, and the control characters tab, line feed, vertical tab, form
    feed and carriage return. *)
Definition is_whitespace (c : ascii) : bool :=
  let n := nat_of_ascii c in
  Nat.eqb n 32 || (Nat.leb 9 n && Nat.leb n 13).

Fixpoint last_char (s : string) : option ascii :=
  match s with
  | EmptyString => None
  | String c EmptyString => Some c
  | String _ rest => last_char rest
  end.

Definition has_edge_whitespace (s : string) : bool :=
  from_option is_whitespace false (String.get 0 s)
  || from_option is_whitespace false (last_char s).

(** ** Sample inputs *)

(** [c.repeat(n)] for a one-character string [c] *)
Fixpoint repeat_char (c : ascii) (n : nat) : string :=
  match n with
  | 0 => ""
  | S n' => String c (repeat_char c n')
  end.

Definition yes_button : Button :=
  {| Button_type := reply;
     Button_reply := {| Reply_title := "Yes"; Reply_id := "yes" |} |}.

Definition no_button : Button :=
  {| Button_type := reply;
     Button_reply := {| Reply_title := "No"; Reply_id := "no" |} |}.

(** The id of [yes_button] under another title. *)
Definition maybe_button : Button :=
  {| Button_type := reply;
     Button_reply := {| Reply_title := "Maybe"; Reply_id := "yes" |} |}.

(** The title of [yes_button] under another id. *)
Definition yes_again_button : Button :=
  {| Button_type := reply;
     Button_reply := {| Reply_title := "Yes"; Reply_id := "y2" |} |}.

Definition sku1 : Product := {| Product_product_retailer_id := "sku1" |}.

Definition sku2 : Product := {| Product_product_retailer_id := "sku2" |}.

Definition shoes : ProductSection :=
  {| ProductSection_title := Some "Shoes";
     ProductSection_product_items := [sku1] |}.

Definition hats : ProductSection :=
  {| ProductSection_title := Some "Hats";
     ProductSection_product_items := [sku2] |}.

Definition untitled : ProductSection :=
  {| ProductSection_title := None;
     ProductSection_product_items := [sku2] |}.

Definition long_text : Text :=
  {| Text_body := repeat_char "a" 61; Text_tag := Some "text" |}.

Definition hi_text : Text := {| Text_body := "Hi"; Text_tag := Some "text" |}.

(** An image given by id, with a caption. *)
Definition captioned_image : Media :=
  <[ "caption" := "A cat" ]> (<[ "_" := "image" ]> {[ "id" := "1" ]}).

Definition single_product_action : Action :=
  OfActionCatalog {| ActionCatalog_catalog_id := "cat1";
                     ActionCatalog_product_retailer_id := Some "sku1";
                     ActionCatalog_sections := None;
                     ActionCatalog_tag := Some "product" |}.

Definition product_list_action : Action :=
  OfActionCatalog {| ActionCatalog_catalog_id := "cat1";
                     ActionCatalog_product_retailer_id := None;
                     ActionCatalog_sections :=
                       Some [ASection shoes; ASection hats];
                     ActionCatalog_tag := Some "product_list" |}.

Definition list_action : Action :=
  OfActionList
    {| ActionList_button := "Menu";
       ActionList_sections :=
         [{| ListSection_rows :=
               [{| Row_id := "r1"; Row_title := "First";
                   Row_description := None |}];
             ListSection_title := None |}];
       ActionList_tag := Some "list" |}.

Definition buttons_action : Action :=
  OfActionButtons {| ActionButtons_buttons := [yes_button; no_button];
                     ActionButtons_tag := Some "button" |}.

Definition text_header : Header :=
  <[ "text" := HString "Hi" ]> {[ "type" := HString "text" ]}.

Definition image_header : Header :=
  <[ "image" := HMedia {[ "id" := "1" ]} ]> {[ "type" := HString "image" ]}.

Definition pick_one : Body := {| Body_text := "Pick one" |}.

Definition continue_action : Action :=
  OfActionButtons {| ActionButtons_buttons := [yes_button];
                     ActionButtons_tag := Some "button" |}.

Definition plain_image : Media := <[ "_" := "image" ]> {[ "id" := "1" ]}.

(** An audio message given by id: a media object that Header does not take. *)
Definition voice_note : Media := <[ "_" := "audio" ]> {[ "id" := "7" ]}.

(** The argument is given and is not the empty string. *)
Definition given (o : option string) : Prop :=
  exists s, o = Some s /\ s <> "".

(** The argument, if given, has at most [n] characters. *)
Definition at_most (n : nat) (o : option string) : Prop :=
  forall s, o = Some s -> String.length s <= n.

Definition first_row : Row :=
  {| Row_id := "r1"; Row_title := "First"; Row_description := None |}.

(** The test for the own property [title] holds of an instance whose field
    holds [title]: always where declared fields are defined, and where they
    are not, when the field holds a title. *)
Definition own_title (fields : ClassFields) (title : option string) : Prop :=
  match fields with
  | DefinedFields => True
  | AssignedFields => is_Some title
  end.

(** An argument of ActionCatalog that passes the loop over the arguments: a
    ProductSection that has the own property [title]. *)
Definition passing_section (fields : ClassFields) (x : CatalogItem) : Prop :=
  exists s, x = ASection s /\ own_title fields (ProductSection_title s).

(** The Button that holds an id and a title. *)
Definition Button_of (id title : string) : Button :=
  {| Button_type := reply;
     Button_reply := {| Reply_title := title; Reply_id := id |} |}.

(** ** The client of [src/index.ts]: values of type [unknown] *)

(** A value of any type.  Functions and the objects that are not functions
    are told apart and otherwise known by an identity only. *)
Inductive JsValue :=
| JsUndefined
| JsNull
| JsBoolean (b : bool)
| JsNumber (x : number)
| JsBigInt (z : Z)
| JsString (s : string)
| JsSymbol
| JsFunction (identity : nat)
| JsObject (identity : nat).

(** [typeof v === "string"], with the string *)
Definition as_string (v : JsValue) : option string :=
  match v with
  | JsString s => Some s
  | _ => None
  end.

(** [typeof v === "function"] *)
Definition is_function (v : JsValue) : bool :=
  match v with
  | JsFunction _ => true
  | _ => false
  end.

(** [!!v]: false for [undefined], [null], [false], the zeros, NaN, [0n] and
    the empty string. *)
Definition to_boolean (v : JsValue) : bool :=
  match v with
  | JsUndefined | JsNull => false
  | JsBoolean b => b
  | JsNumber (S754_zero _) | JsNumber S754_nan => false
  | JsNumber _ => true
  | JsBigInt z => negb (Z.eqb z 0)
  | JsString s => truthy s
  | JsSymbol | JsFunction _ | JsObject _ => true
  end.

(** A parameter with a default value, [p = d]: the default is taken when the
    argument is [undefined], and only then. *)
Definition or_default (v d : JsValue) : JsValue :=
  match v with
  | JsUndefined => d
  | _ => v
  end.

(** A parameter whose default is a global name, [p = name]: the name is
    looked up when the argument is [undefined], and only then; [None] where
    the name is looked up and is not bound. *)
Definition or_global (v : JsValue) (global : option JsValue)
  : option JsValue :=
  match v with
  | JsUndefined => global
  | _ => Some v
  end.

(** What the client throws: an Error or a TypeError it makes itself, a bare
    number, or the error the engine raises for a name that is not bound, or
    for reading a property of [null]. *)
Inductive Thrown :=
| Error (msg : string)
| TypeError (msg : string)
| Number (code : nat)
| ReferenceError (name : string)
| NullRead (property : string).

Inductive outcome (A : Type) : Type :=
| Returns (a : A)
| Throws (e : Thrown).
Arguments Returns {A} a.
Arguments Throws {A} e.

Definition returns {A} (o : outcome A) : bool :=
  match o with Returns _ => true | Throws _ => false end.

(** ** The client: its constructor *)

(** The argument of the constructor, property by property; a property that is
    not there reads as [undefined]. *)
Record Options := {
  Options_token : JsValue;
  Options_appSecret : JsValue;
  Options_webhookVerifyToken : JsValue;
  Options_v : JsValue;
  Options_parsed : JsValue;
  Options_secure : JsValue;
  Options_ponyfill : JsValue
}.

Record WhatsAppAPI := {
  WhatsAppAPI_token : string;
  WhatsAppAPI_appSecret : option string;
  WhatsAppAPI_webhookVerifyToken : option string;
  WhatsAppAPI_v : string;
  WhatsAppAPI_fetch : JsValue;
  WhatsAppAPI_parsed : bool;
  WhatsAppAPI_secure : bool
}.

Section Client.

(** The global [fetch] of the environment, [None] where the name is not
    bound.  It is read only to give [ponyfill] its default. *)
Variable global_fetch : option JsValue.

(** The constructor.  The defaults of the parameters come first, then the
    body; [super()] is the constructor of the EventEmitter of the platform,
    whose listeners are not part of the instance as modelled. *)
Definition new_WhatsAppAPI (options : Options) : outcome WhatsAppAPI :=
  let v := or_default (Options_v options) (JsString "v16.0") in
  let parsed := or_default (Options_parsed options) (JsBoolean true) in
  let secure := or_default (Options_secure options) (JsBoolean true) in
  match or_global (Options_ponyfill options) global_fetch with
  | None => Throws (ReferenceError "fetch")
  | Some ponyfill =>
      match as_string (Options_token options) with
      | None => Throws (Error "Token must be a string")
      | Some token =>
          let secure := to_boolean secure in
          match (if secure
                 then match as_string (Options_appSecret options) with
                      | None =>
                          Throws (Error "App secret must be a string. To ignore this parameter, set secure to false (Not recommended).")
                      | Some appSecret => Returns (Some appSecret)
                      end
                 else Returns None) with
          | Throws e => Throws e
          | Returns appSecret =>
              let webhookVerifyToken :=
                as_string (Options_webhookVerifyToken options) in
              if negb (is_function ponyfill)
              then Throws (Error "fetch is not defined in the enviroment, please provide a ponyfill function with the parameter 'ponyfill'.")
              else
                match as_string v with
                | None => Throws (Error "Version must be a string")
                | Some v =>
                    Returns {| WhatsAppAPI_token := token;
                               WhatsAppAPI_appSecret := appSecret;
                               WhatsAppAPI_webhookVerifyToken :=
                                 webhookVerifyToken;
                               WhatsAppAPI_v := v;
                               WhatsAppAPI_fetch := ponyfill;
                               WhatsAppAPI_parsed := to_boolean parsed;
                               WhatsAppAPI_secure := secure |}
                end
          end
      end
  end.

End Client.

(** ** The client: the webhooks *)

(** [s.split(sep)] for a separator of one character: the pieces between the
    occurrences of the separator, at least one. *)
Fixpoint split_on (sep : ascii) (s : string) : list string :=
  match s with
  | EmptyString => [""]
  | String c rest =>
      if Ascii.eqb c sep then "" :: split_on sep rest
      else match split_on sep rest with
           | piece :: pieces => String c piece :: pieces
           | [] => [String c ""]
           end
  end.

(** A [BinaryLike]: a string, or a view on bytes. *)
Inductive BinaryLike :=
| BinaryString (s : string)
| BinaryView (bytes : list N).

(** [!!rawBody]: a view is an object. *)
Definition BinaryLike_truthy (b : BinaryLike) : bool :=
  match b with
  | BinaryString s => truthy s
  | BinaryView _ => true
  end.

Section Webhooks.

(** The payloads, which are declared in [./types] and only passed on. *)
Variables PostData GetParams Message Status : Type.

(** [createHmac("sha256", key).update(body).digest("hex")] of [node:crypto] *)
Variable createHmac_sha256_hex : string -> BinaryLike -> string.

(** [post] and [get] of [./requests], which are not among the sources.  A call
    of [post] is the calls it makes of its two callbacks, in order, each with
    a message ([inl]) or with a status ([inr]), and the way it ends. *)
Variable requests_post : PostData -> list (Message + Status) * outcome nat.
Variable requests_get : GetParams -> string -> outcome string.

(** [this.emit("message", message)] and [this.emit("status", status)] *)
Definition emitted (call : Message + Status) : string * (Message + Status) :=
  match call with
  | inl message => ("message", inl message)
  | inr status => ("status", inr status)
  end.

(** The method [post]: the events it emits, and its result. *)
Definition post (this : WhatsAppAPI) (request : PostData)
    (signature : option string) (rawBody : option BinaryLike)
  : list (string * (Message + Status)) * outcome nat :=
  let handle :=
    let '(calls, result) := requests_post request in
    (map emitted calls, result) in
  if WhatsAppAPI_secure this then
    match signature, rawBody with
    | Some signature, Some rawBody =>
        if negb (truthy signature) || negb (BinaryLike_truthy rawBody)
        then ([], Throws (Number 400))
        else
          match WhatsAppAPI_appSecret this with
          | Some appSecret =>
              if negb (truthy appSecret) then ([], Throws (Number 500))
              else
                let hash := createHmac_sha256_hex appSecret rawBody in
                if negb (bool_decide (split_on "=" signature !! 1 = Some hash))
                then ([], Throws (Number 400))
                else handle
          | None => ([], Throws (Number 500))
          end
    | _, _ => ([], Throws (Number 400))
    end
  else handle.

(** The events emitted and the result when a request is handed on to [post]
    of [./requests]. *)
Definition handed_on (request : PostData)
  : list (string * (Message + Status)) * outcome nat :=
  (map emitted (fst (requests_post request)), snd (requests_post request)).

(** The method [get]. *)
Definition get (this : WhatsAppAPI) (request : GetParams) : outcome string :=
  match WhatsAppAPI_webhookVerifyToken this with
  | Some webhookVerifyToken =>
      if negb (truthy webhookVerifyToken) then Throws (Number 500)
      else requests_get request webhookVerifyToken
  | None => Throws (Number 500)
  end.

End Webhooks.

(** ** The client: uploading a media *)

(** A Blob, by its MIME type and its size in bytes.  The size is a whole
    number; below 2^53 it is the number the source holds, and its decimal
    writing is what a template string prints. *)
Record Blob := { Blob_type : string; Blob_size : N }.

(** What [form.get("file")] gives: [null] when the form has no such entry, a
    string, or a file. *)
Inductive FormEntry :=
| EntryNull
| EntryString (s : string)
| EntryBlob (file : Blob).

(** The argument [form: unknown], by what the method tells apart: a falsy
    value; a value whose [typeof] is not "object"; an object without a
    property [get]; an object whose [get] is not a function; an object with a
    method [get], such as a FormData, the method being taken to return
    without effect. *)
Inductive FormArgument :=
| FormFalsy
| FormNotObject
| FormWithoutGet
| FormGetNotFunction
| FormWithGet (get : string -> FormEntry).

Definition validMediaTypes : list string :=
  [ "audio/aac"; "audio/mp4"; "audio/mpeg"; "audio/amr"; "audio/ogg";
    "text/plain"; "application/pdf"; "application/vnd.ms-powerpoint";
    "application/msword"; "application/vnd.ms-excel";
    "application/vnd.openxmlformats-officedocument.wordprocessingml.document";
    "application/vnd.openxmlformats-officedocument.presentationml.presentation";
    "application/vnd.openxmlformats-officedocument.spreadsheetml.sheet";
    "image/jpeg"; "image/png"; "video/mp4"; "video/3gp"; "image/webp" ].

Definition validMediaSizes : gmap string N :=
  list_to_map [ ("audio", 16000000%N); ("text", 100000000%N);
                ("application", 100000000%N); ("image", 5000000%N);
                ("video", 16000000%N); ("sticker", 500000%N) ].

(** The properties an object literal inherits from [Object.prototype]. *)
Definition Object_prototype_keys : list string :=
  [ "constructor"; "hasOwnProperty"; "isPrototypeOf"; "propertyIsEnumerable";
    "toLocaleString"; "toString"; "valueOf"; "__proto__";
    "__defineGetter__"; "__defineSetter__"; "__lookupGetter__";
    "__lookupSetter__" ].

(** A property of [validMediaSizes]: one of its own, a number, or an
    inherited one, which is not a number. *)
Inductive SizeMember :=
| OwnSize (limit : N)
| InheritedMember.

(** [validMediaSizes[key]], and [None] unless [key in validMediaSizes]. *)
Definition validMediaSizes_at (key : string) : option SizeMember :=
  match validMediaSizes !! key with
  | Some limit => Some (OwnSize limit)
  | None =>
      if bool_decide (key ∈ Object_prototype_keys) then Some InheritedMember
      else None
  end.

(** [type === "image/webp" ? "sticker" : type.split("/")[0]] *)
Definition mediaType_of (type : string) : string :=
  if String.eqb type "image/webp" then "sticker"
  else hd "" (split_on "/" type).

(** The request handed to [uploadMedia] of [./fetch], which is not among the
    sources, and whether the answer is to be parsed. *)
Record UploadCall := {
  UploadCall_token : string;
  UploadCall_v : string;
  UploadCall_phoneID : string;
  UploadCall_form : FormArgument;
  UploadCall_parsed : bool
}.

(** The checks of [uploadMedia] on the file of the form. *)
Definition check_file (file : FormEntry) : outcome unit :=
  match file with
  | EntryNull => Throws (NullRead "type")
  | EntryString _ => Throws (Error "File's Blob must have a type specified")
  | EntryBlob file =>
      if negb (truthy (Blob_type file))
      then Throws (Error "File's Blob must have a type specified")
      else if negb (bool_decide (Blob_type file ∈ validMediaTypes))
      then Throws (Error ("Invalid media type: " ++ Blob_type file))
      else
        let mediaType := mediaType_of (Blob_type file) in
        match validMediaSizes_at mediaType with
        | None => Throws (Error ("Invalid media type: " ++ Blob_type file))
        | Some InheritedMember => Returns tt
        | Some (OwnSize limit) =>
            if negb (N.eqb (Blob_size file) 0) && N.ltb limit (Blob_size file)
            then Throws (Error ("File is too big ("
                                ++ pretty (Blob_size file) ++ " bytes) for a "
                                ++ mediaType ++ " ("
                                ++ pretty limit ++ " bytes limit)"))
            else Returns tt
        end
  end.

(** The method [uploadMedia], which is asynchronous: [Throws e] is the
    rejection of the promise it returns, [Returns call] the request it makes.
    The parameter [check] is [true] unless given. *)
Definition uploadMedia (this : WhatsAppAPI) (phoneID : string)
    (form : FormArgument) (check : option bool) : outcome UploadCall :=
  let call :=
    Returns {| UploadCall_token := WhatsAppAPI_token this;
               UploadCall_v := WhatsAppAPI_v this;
               UploadCall_phoneID := phoneID;
               UploadCall_form := form;
               UploadCall_parsed := WhatsAppAPI_parsed this |} in
  if negb (truthy phoneID) then Throws (Error "Phone ID must be specified")
  else
    match form with
    | FormFalsy => Throws (Error "Form must be specified")
    | _ =>
        if default true check then
          match form with
          | FormWithGet get =>
              match check_file (get "file") with
              | Throws e => Throws e
              | Returns _ => call
              end
          | _ => Throws (TypeError "File's Form must be an instance of FormData")
          end
        else call
    end.

(** ** Sample inputs of the client *)

(** A FormData that holds one file. *)
Definition form_of (file : Blob) : FormArgument :=
  FormWithGet (fun name => if String.eqb name "file" then EntryBlob file
                           else EntryNull).

Definition some_fetch : JsValue := JsFunction 0.

Definition bare_options (token : JsValue) : Options :=
  {| Options_token := token;
     Options_appSecret := JsUndefined;
     Options_webhookVerifyToken := JsUndefined;
     Options_v := JsUndefined;
     Options_parsed := JsUndefined;
     Options_secure := JsUndefined;
     Options_ponyfill := JsUndefined |}.

Definition secure_client : WhatsAppAPI :=
  {| WhatsAppAPI_token := "token";
     WhatsAppAPI_appSecret := Some "secret";
     WhatsAppAPI_webhookVerifyToken := Some "verify";
     WhatsAppAPI_v := "v16.0";
     WhatsAppAPI_fetch := some_fetch;
     WhatsAppAPI_parsed := true;
     WhatsAppAPI_secure := true |}.

(** A stand-in for the digest, for examples: the same hexadecimal string for
    every key and body. *)
Definition fixed_digest (key : string) (body : BinaryLike) : string :=
  "0f3a".

(** A stand-in for [post] of [./requests], for examples: it reports the
    request as one message and returns 200. *)
Definition echo_post (request : string) : list (string + unit) * outcome nat :=
  ([inl request], Returns 200).

(** The character [c] occurs in [s]. *)
Fixpoint contains (c : ascii) (s : string) : bool :=
  match s with
  | EmptyString => false
  | String d rest => Ascii.eqb d c || contains c rest
  end.

(** A stand-in for [get] of [./requests], for examples: it answers with the
    token it is given. *)
Definition echo_get (request : unit) (token : string) : outcome string :=
  Returns token.

(** A client built with [secure: false]. *)
Definition open_client : WhatsAppAPI :=
  {| WhatsAppAPI_token := "token";
     WhatsAppAPI_appSecret := None;
     WhatsAppAPI_webhookVerifyToken := None;
     WhatsAppAPI_v := "v16.0";
     WhatsAppAPI_fetch := some_fetch;
     WhatsAppAPI_parsed := true;
     WhatsAppAPI_secure := false |}.

(** The options of a client with an empty app secret. *)
Definition empty_secret_options : Options :=
  {| Options_token := JsString "token";
     Options_appSecret := JsString "";
     Options_webhookVerifyToken := JsUndefined;
     Options_v := JsUndefined;
     Options_parsed := JsUndefined;
     Options_secure := JsUndefined;
     Options_ponyfill := JsUndefined |}.

Definition empty_secret_client : WhatsAppAPI :=
  {| WhatsAppAPI_token := "token";
     WhatsAppAPI_appSecret := Some "";
     WhatsAppAPI_webhookVerifyToken := None;
     WhatsAppAPI_v := "v16.0";
     WhatsAppAPI_fetch := some_fetch;
     WhatsAppAPI_parsed := true;
     WhatsAppAPI_secure := true |}.

(** The MIME types [uploadMedia] takes, each with the greatest size in bytes
    it takes for that type. *)
Definition media_limits : list (string * N) :=
  [ ("audio/aac", 16000000%N); ("audio/mp4", 16000000%N);
    ("audio/mpeg", 16000000%N); ("audio/amr", 16000000%N);
    ("audio/ogg", 16000000%N);
    ("text/plain", 100000000%N);
    ("application/pdf", 100000000%N);
    ("application/vnd.ms-powerpoint", 100000000%N);
    ("application/msword", 100000000%N);
    ("application/vnd.ms-excel", 100000000%N);
    ("application/vnd.openxmlformats-officedocument.wordprocessingml.document",
     100000000%N);
    ("application/vnd.openxmlformats-officedocument.presentationml.presentation",
     100000000%N);
    ("application/vnd.openxmlformats-officedocument.spreadsheetml.sheet",
     100000000%N);
    ("image/jpeg", 5000000%N); ("image/png", 5000000%N);
    ("video/mp4", 16000000%N); ("video/3gp", 16000000%N);
    ("image/webp", 500000%N) ].

(** The request that [uploadMedia] makes for a form. *)
Definition upload_of (this : WhatsAppAPI) (phoneID : string)
    (form : FormArgument) : UploadCall :=
  {| UploadCall_token := WhatsAppAPI_token this;
     UploadCall_v := WhatsAppAPI_v this;
     UploadCall_phoneID := phoneID;
     UploadCall_form := form;
     UploadCall_parsed := WhatsAppAPI_parsed this |}.

(** * Properties *)

(** ** Strings *)

Lemma truthy_nonempty (s : string) : truthy s = true <-> s <> "".
Proof. destruct s; simpl; split; congruence. Qed.

Lemma truthy_length (s : string) : 0 < String.length s -> truthy s = true.
Proof. destruct s; simpl; [lia | reflexivity]. Qed.

Lemma longer_than_true (s : string) (n : nat) :
  longer_than s n = true <-> n < String.length s.
Proof. unfold longer_than. apply Nat.ltb_lt. Qed.

Lemma longer_than_false (s : string) (n : nat) :
  longer_than s n = false <-> String.length s <= n.
Proof. unfold longer_than. rewrite Nat.ltb_ge. reflexivity. Qed.

Lemma length_repeat_char (c : ascii) (n : nat) :
  String.length (repeat_char c n) = n.
Proof. induction n as [|n IH]; simpl; congruence. Qed.

Lemma last_char_get (s : string) :
  last_char s = String.get (String.length s - 1) s.
Proof.
  induction s as [|c s IH]; [reflexivity|].
  destruct s as [|d s]; [reflexivity|].
  change (last_char (String c (String d s))) with (last_char (String d s)).
  rewrite IH. simpl. rewrite Nat.sub_0_r. reflexivity.
Qed.

Lemma starts_with_space_get (s : string) :
  starts_with_space s = true <-> String.get 0 s = Some " "%char.
Proof.
  destruct s as [|c s]; simpl; [split; discriminate|].
  rewrite Ascii.eqb_eq. split; congruence.
Qed.

Lemma ends_with_space_last (s : string) :
  ends_with_space s = true <-> last_char s = Some " "%char.
Proof.
  induction s as [|c s IH]; simpl; [split; discriminate|].
  destruct s as [|d s]; [|exact IH].
  rewrite Ascii.eqb_eq. split; congruence.
Qed.

(** The regular expression of the Button id, by positions. *)
Lemma edge_space_test_get (s : string) :
  edge_space_test s = true <->
  String.get 0 s = Some " "%char \/
  String.get (String.length s - 1) s = Some " "%char.
Proof.
  unfold edge_space_test. rewrite orb_true_iff.
  rewrite starts_with_space_get, ends_with_space_last, last_char_get.
  reflexivity.
Qed.

(** ** Running a sequence of checks *)

Lemma throw_if_false {A} (c : bool) (msg : string) (k : result A) :
  c = false -> (throw_if c msg ;;; k) = k.
Proof. intros ->. reflexivity. Qed.

Lemma throw_if_true {A} (c : bool) (msg : string) (k : result A) :
  c = true -> (throw_if c msg ;;; k) = Throw msg.
Proof. intros ->. reflexivity. Qed.

(** Case analysis on every test of a sequence of checks, in order. *)
Ltac case_checks tac :=
  repeat match goal with
         | |- context [if ?c then _ else _] => destruct c; tac
         end.

(** What a Button construction returns, check by check. *)
Lemma new_Button_cases (id title : string) :
  new_Button id title =
    if negb (truthy id) then Throw "Button must have an id"
    else if longer_than id 256
      then Throw "Button id must be 256 characters or less"
    else if edge_space_test id
      then Throw "Button id cannot have leading or trailing spaces"
    else if negb (truthy title) then Throw "Button must have a title"
    else if longer_than title 20
      then Throw "Button title must be 20 characters or less"
    else Ok {| Button_type := reply;
               Button_reply := {| Reply_title := title; Reply_id := id |} |}.
Proof.
  unfold new_Button, throw_if, rbind.
  case_checks ltac:(try reflexivity).
Qed.

Lemma new_Row_cases (id title : string) (description : option string) :
  new_Row id title description =
    if negb (truthy id) then Throw "Row must have an id"
    else if longer_than id 200
      then Throw "Row id must be 200 characters or less"
    else if negb (truthy title) then Throw "Row must have a title"
    else if longer_than title 24
      then Throw "Row title must be 24 characters or less"
    else if longer_than_opt description 72
      then Throw "Row description must be 72 characters or less"
    else Ok {| Row_id := id; Row_title := title;
               Row_description := keep_truthy description |}.
Proof.
  unfold new_Row, throw_if, rbind.
  case_checks ltac:(try reflexivity).
Qed.

(** ** Length caps (C5) *)

(** C5.  Each capped text field accepts a string of exactly the maximum
    length and rejects, with its length error, a string one character longer:
    the text of Body (1024), the text of Footer (60), the title of Button (20)
    and the title of Row (24).  For Button and Row the other arguments are
    ones their own checks accept. *)
Theorem C5_length_caps :
  (forall text, String.length text = 1024 ->
     new_Body text = Ok {| Body_text := text |}) /\
  (forall text, String.length text = 1025 ->
     new_Body text = Throw "Body text must be less than 1024 characters") /\
  (forall text, String.length text = 60 ->
     new_Footer text = Ok {| Footer_text := text |}) /\
  (forall text, String.length text = 61 ->
     new_Footer text = Throw "Footer text must be 60 characters or less") /\
  (forall id title,
     id <> "" -> String.length id <= 256 -> edge_space_test id = false ->
     (String.length title = 20 ->
        new_Button id title =
          Ok {| Button_type := reply;
                Button_reply := {| Reply_title := title; Reply_id := id |} |}) /\
     (String.length title = 21 ->
        new_Button id title =
          Throw "Button title must be 20 characters or less")) /\
  (forall id title description,
     id <> "" -> String.length id <= 200 ->
     (String.length title = 24 -> longer_than_opt description 72 = false ->
        new_Row id title description =
          Ok {| Row_id := id; Row_title := title;
                Row_description := keep_truthy description |}) /\
     (String.length title = 25 ->
        new_Row id title description =
          Throw "Row title must be 24 characters or less")).
Proof.
  assert (Hat : forall s n, String.length s = n -> longer_than s n = false)
    by (intros s n E; apply longer_than_false; lia).
  assert (Hpast : forall s n, String.length s = S n -> longer_than s n = true)
    by (intros s n E; apply longer_than_true; lia).
  assert (Hfull : forall s n, String.length s = S n -> truthy s = true)
    by (intros s n E; apply truthy_length; lia).
  split; [|split; [|split; [|split; [|split]]]].
  - intros text Hlen. unfold new_Body.
    rewrite (Hfull _ _ Hlen), (Hat _ _ Hlen). reflexivity.
  - intros text Hlen. unfold new_Body.
    rewrite (Hfull _ _ Hlen), (Hpast _ _ Hlen). reflexivity.
  - intros text Hlen. unfold new_Footer.
    rewrite (Hfull _ _ Hlen), (Hat _ _ Hlen). reflexivity.
  - intros text Hlen. unfold new_Footer.
    rewrite (Hfull _ _ Hlen), (Hpast _ _ Hlen). reflexivity.
  - intros id title Hid Hidlen Hspace.
    apply truthy_nonempty in Hid. apply longer_than_false in Hidlen.
    rewrite new_Button_cases, Hid, Hidlen, Hspace.
    split; intros Hlen; rewrite (Hfull _ _ Hlen).
    + rewrite (Hat _ _ Hlen). reflexivity.
    + rewrite (Hpast _ _ Hlen). reflexivity.
  - intros id title description Hid Hidlen.
    apply truthy_nonempty in Hid. apply longer_than_false in Hidlen.
    rewrite new_Row_cases, Hid, Hidlen.
    split.
    + intros Hlen Hdescription.
      rewrite (Hfull _ _ Hlen), (Hat _ _ Hlen), Hdescription. reflexivity.
    + intros Hlen. rewrite (Hfull _ _ Hlen), (Hpast _ _ Hlen). reflexivity.
Qed.

Lemma C5_length_caps_witness :
  new_Body (repeat_char "a" 1024)
    = Ok {| Body_text := repeat_char "a" 1024 |} /\
  new_Body (repeat_char "a" 1025)
    = Throw "Body text must be less than 1024 characters" /\
  new_Footer (repeat_char "a" 60)
    = Ok {| Footer_text := repeat_char "a" 60 |} /\
  new_Footer (repeat_char "a" 61)
    = Throw "Footer text must be 60 characters or less" /\
  new_Button "yes" (repeat_char "a" 20)
    = Ok {| Button_type := reply;
            Button_reply := {| Reply_title := repeat_char "a" 20;
                               Reply_id := "yes" |} |} /\
  new_Button "yes" (repeat_char "a" 21)
    = Throw "Button title must be 20 characters or less" /\
  new_Row "r1" (repeat_char "a" 24) None
    = Ok {| Row_id := "r1"; Row_title := repeat_char "a" 24;
            Row_description := None |} /\
  new_Row "r1" (repeat_char "a" 25) None
    = Throw "Row title must be 24 characters or less".
Proof.
  destruct C5_length_caps as (B1 & B2 & F1 & F2 & Bt & Rw).
  assert (Hyes : "yes" <> "") by discriminate.
  assert (Hr1 : "r1" <> "") by discriminate.
  destruct (Bt "yes" (repeat_char "a" 20) Hyes ltac:(simpl; lia) eq_refl)
    as [Bt1 _].
  destruct (Bt "yes" (repeat_char "a" 21) Hyes ltac:(simpl; lia) eq_refl)
    as [_ Bt2].
  destruct (Rw "r1" (repeat_char "a" 24) None Hr1 ltac:(simpl; lia))
    as [Rw1 _].
  destruct (Rw "r1" (repeat_char "a" 25) None Hr1 ltac:(simpl; lia))
    as [_ Rw2].
  split; [apply B1; reflexivity|].
  split; [apply B2; reflexivity|].
  split; [apply F1; reflexivity|].
  split; [apply F2; reflexivity|].
  split; [apply Bt1; reflexivity|].
  split; [apply Bt2; reflexivity|].
  split; [apply Rw1; reflexivity|].
  apply Rw2; reflexivity.
Defined.

(** ** Empty strings (C9) *)

(** C9.  An empty string in a required text field is reported as a missing
    field, never as a length violation: the text of Body and of Footer, the
    id and the title of Button, the id and the title of Row.  The checks run
    in the order of the parameters, so the title's error is the one reported
    when the id before it passes its own checks. *)
Theorem C9_empty_is_missing :
  new_Body "" = Throw "Body must have a text object" /\
  new_Footer "" = Throw "Footer must have a text object" /\
  (forall title, new_Button "" title = Throw "Button must have an id") /\
  (forall id,
     id <> "" -> String.length id <= 256 -> edge_space_test id = false ->
     new_Button id "" = Throw "Button must have a title") /\
  (forall id,
     new_Button id "" <> Throw "Button title must be 20 characters or less") /\
  (forall title description,
     new_Row "" title description = Throw "Row must have an id") /\
  (forall id description,
     id <> "" -> String.length id <= 200 ->
     new_Row id "" description = Throw "Row must have a title") /\
  (forall id description,
     new_Row id "" description
       <> Throw "Row title must be 24 characters or less").
Proof.
  split; [reflexivity|]. split; [reflexivity|].
  split; [reflexivity|].
  split.
  { intros id Hne Hlen Hsp. rewrite new_Button_cases.
    apply truthy_nonempty in Hne. apply longer_than_false in Hlen.
    rewrite Hne, Hlen, Hsp. reflexivity. }
  split.
  { intros id. rewrite new_Button_cases.
    destruct (truthy id), (longer_than id 256), (edge_space_test id);
      simpl; discriminate. }
  split; [reflexivity|].
  split.
  { intros id description Hne Hlen. rewrite new_Row_cases.
    apply truthy_nonempty in Hne. apply longer_than_false in Hlen.
    rewrite Hne, Hlen. reflexivity. }
  intros id description. rewrite new_Row_cases.
  destruct (truthy id), (longer_than id 200); simpl; discriminate.
Qed.

Lemma C9_empty_is_missing_witness :
  new_Button "yes" "" = Throw "Button must have a title" /\
  new_Row "r1" "" (Some "first row") = Throw "Row must have a title".
Proof.
  destruct C9_empty_is_missing as (_ & _ & _ & Bt & _ & _ & Rw & _).
  split.
  - apply Bt; [discriminate | simpl; lia | reflexivity].
  - apply Rw; [discriminate | simpl; lia].
Defined.

(** ** The format of a Button id (C8) *)

(** C8, as stated, fails: an id that starts with a tab has leading white
    space, is not empty and is shorter than 256 characters, and the Button is
    built all the same. *)
Lemma C8_tab_is_accepted :
  let id := String (ascii_of_nat 9) "ok" in
  id <> "" /\ String.length id <= 256 /\
  has_edge_whitespace id = true /\
  new_Button id "Go" =
    Ok {| Button_type := reply;
          Button_reply := {| Reply_title := "Go"; Reply_id := id |} |}.
Proof.
  simpl. split; [discriminate|]. split; [lia|]. split; reflexivity.
Qed.

(** C8, amended.  For a non-empty id of at most 256 characters, construction
    fails with the format error exactly when the first or the last character of
    the id is a space (U+0020); every other id passes the format check,
    whatever else it starts or ends with. *)
Theorem C8_format_is_edge_space (id title : string) :
  id <> "" -> String.length id <= 256 ->
  (new_Button id title
     = Throw "Button id cannot have leading or trailing spaces"
   <-> String.get 0 id = Some " "%char \/
       String.get (String.length id - 1) id = Some " "%char).
Proof.
  intros Hne Hlen. rewrite <- edge_space_test_get, new_Button_cases.
  apply truthy_nonempty in Hne. apply longer_than_false in Hlen.
  rewrite Hne, Hlen. simpl.
  destruct (edge_space_test id); [split; reflexivity|].
  split; [|discriminate].
  destruct (truthy title); simpl; [|discriminate].
  destruct (longer_than title 20); discriminate.
Qed.

Lemma C8_format_is_edge_space_witness :
  new_Button " yes" "Go"
    = Throw "Button id cannot have leading or trailing spaces".
Proof.
  apply (C8_format_is_edge_space " yes" "Go");
    [discriminate | simpl; lia | left; reflexivity].
Defined.

(** ** Duplicates among the buttons (C4) *)

Lemma set_size_le (xs : list string) : set_size xs <= length xs.
Proof.
  unfold set_size. induction xs as [|x xs IH].
  - rewrite list_to_set_nil, size_empty. simpl. lia.
  - rewrite list_to_set_cons, size_union_alt, size_singleton. simpl.
    assert (Hsub : (list_to_set xs ∖ {[x]} : gset string) ⊆ list_to_set xs)
      by (apply subseteq_difference_l; reflexivity).
    apply subseteq_size in Hsub. lia.
Qed.

(** [ids.length !== new Set(ids).size] holds exactly when an element occurs
    twice. *)
Lemma set_size_NoDup (xs : list string) :
  length xs = set_size xs <-> NoDup xs.
Proof.
  split.
  - induction xs as [|x xs IH]; intros Hsz; [constructor|].
    destruct (decide (x ∈ xs)) as [Hin|Hnin].
    + exfalso. pose proof (set_size_le xs) as Hle.
      unfold set_size in *. rewrite list_to_set_cons in Hsz.
      rewrite (subseteq_union_1_L (C:=gset string)) in Hsz by set_solver.
      simpl in Hsz. lia.
    + constructor; [exact Hnin|]. apply IH.
      unfold set_size in *. rewrite list_to_set_cons in Hsz.
      rewrite size_union, size_singleton in Hsz by set_solver.
      simpl in Hsz. lia.
  - intros Hnd. unfold set_size. symmetry. apply size_list_to_set, Hnd.
Qed.

Lemma Button_at_type_reply (b : Button) : Button_at_type b = Button_reply b.
Proof. unfold Button_at_type. destruct (Button_type b). reflexivity. Qed.

Lemma new_ActionButtons_cases (button : list Button) :
  new_ActionButtons button =
    if Nat.eqb (length button) 0 || Nat.ltb 3 (length button)
    then Throw "Reply buttons must have between 1 and 3 buttons"
    else if bool_decide (NoDup (button_ids button))
    then if bool_decide (NoDup (button_titles button))
         then Ok {| ActionButtons_buttons := button;
                    ActionButtons_tag := Some "button" |}
         else Throw "Reply buttons must have unique titles"
    else Throw "Reply buttons must have unique ids".
Proof.
  unfold new_ActionButtons.
  rewrite (map_ext _ (fun b => Reply_id (Button_reply b)))
    by (intros b; rewrite Button_at_type_reply; reflexivity).
  rewrite (map_ext (fun b => Reply_title _) (fun b => Reply_title (Button_reply b)))
    by (intros b; rewrite Button_at_type_reply; reflexivity).
  fold (button_ids button) (button_titles button).
  destruct (_ || _); [reflexivity|]. simpl.
  pose proof (set_size_NoDup (button_ids button)) as Hi.
  pose proof (set_size_NoDup (button_titles button)) as Ht.
  destruct (Nat.eqb_spec (length (button_ids button))
              (set_size (button_ids button))) as [Ei|Ei]; simpl.
  - rewrite bool_decide_eq_true_2 by (apply Hi, Ei).
    destruct (Nat.eqb_spec (length (button_titles button))
                (set_size (button_titles button))) as [Et|Et]; simpl.
    + rewrite bool_decide_eq_true_2 by (apply Ht, Et). reflexivity.
    + rewrite bool_decide_eq_false_2 by (rewrite <- Ht; exact Et). reflexivity.
  - rewrite bool_decide_eq_false_2 by (rewrite <- Hi; exact Ei). reflexivity.
Qed.

(** Two positions of a list hold the same value: the list has a duplicate. *)
Lemma shared_not_NoDup {A B} (f : A -> B) (l : list A) (i j : nat) (a b : A) :
  i <> j -> l !! i = Some a -> l !! j = Some b -> f a = f b ->
  ~ NoDup (map f l).
Proof.
  intros Hij Hi Hj Hf Hnd. apply Hij.
  apply (proj1 (NoDup_alt (map f l)) Hnd i j (f a)).
  - change (map f l) with (f <$> l). rewrite list_lookup_fmap, Hi. reflexivity.
  - change (map f l) with (f <$> l). rewrite list_lookup_fmap, Hj, Hf.
    reflexivity.
Qed.

(** The test on the number of children, [!n || n > hi]. *)
Lemma count_check_true (n hi : nat) :
  (Nat.eqb n 0 || Nat.ltb hi n) = true <-> n = 0 \/ hi < n.
Proof. rewrite orb_true_iff, Nat.eqb_eq, Nat.ltb_lt. reflexivity. Qed.

Lemma count_check_false (n hi : nat) :
  (Nat.eqb n 0 || Nat.ltb hi n) = false <-> 1 <= n <= hi.
Proof. rewrite orb_false_iff, Nat.eqb_neq, Nat.ltb_ge. lia. Qed.

(** C4.  ActionButtons fails on no button and on more than three; it fails
    when two of its buttons have the same id, whatever their titles, and when
    two have the same title, whatever their ids; given one to three buttons
    with pairwise distinct ids and pairwise distinct titles, it succeeds and
    stores them in the order given. *)
Theorem C4_buttons_unique (button : list Button) :
  (length button = 0 \/ 3 < length button ->
     new_ActionButtons button
       = Throw "Reply buttons must have between 1 and 3 buttons") /\
  (forall i j b1 b2,
     i <> j -> button !! i = Some b1 -> button !! j = Some b2 ->
     Reply_id (Button_reply b1) = Reply_id (Button_reply b2) ->
     is_ok (new_ActionButtons button) = false /\
     (1 <= length button <= 3 ->
        new_ActionButtons button
          = Throw "Reply buttons must have unique ids")) /\
  (forall i j b1 b2,
     i <> j -> button !! i = Some b1 -> button !! j = Some b2 ->
     Reply_title (Button_reply b1) = Reply_title (Button_reply b2) ->
     is_ok (new_ActionButtons button) = false /\
     (1 <= length button <= 3 -> NoDup (button_ids button) ->
        new_ActionButtons button
          = Throw "Reply buttons must have unique titles")) /\
  (1 <= length button <= 3 ->
     NoDup (button_ids button) -> NoDup (button_titles button) ->
     new_ActionButtons button
       = Ok {| ActionButtons_buttons := button;
               ActionButtons_tag := Some "button" |}).
Proof.
  rewrite new_ActionButtons_cases.
  pose proof (count_check_false (length button) 3) as Hrange.
  split; [|split; [|split]].
  - intros Hlen. apply count_check_true in Hlen. rewrite Hlen. reflexivity.
  - intros i j b1 b2 Hij Hi Hj Hid.
    assert (Hdup : ~ NoDup (button_ids button))
      by (eapply (shared_not_NoDup (fun b => Reply_id (Button_reply b)));
          eassumption).
    rewrite (bool_decide_eq_false_2 _ Hdup).
    split.
    + destruct (_ || _); reflexivity.
    + intros Hlen. apply Hrange in Hlen. rewrite Hlen. reflexivity.
  - intros i j b1 b2 Hij Hi Hj Hid.
    assert (Hdup : ~ NoDup (button_titles button))
      by (eapply (shared_not_NoDup (fun b => Reply_title (Button_reply b)));
          eassumption).
    rewrite (bool_decide_eq_false_2 _ Hdup).
    split.
    + destruct (_ || _); [reflexivity|]. destruct (bool_decide _); reflexivity.
    + intros Hlen Hids. apply Hrange in Hlen. rewrite Hlen.
      rewrite (bool_decide_eq_true_2 _ Hids). reflexivity.
  - intros Hlen Hids Htitles. apply Hrange in Hlen. rewrite Hlen.
    rewrite (bool_decide_eq_true_2 _ Hids), (bool_decide_eq_true_2 _ Htitles).
    reflexivity.
Qed.

Lemma C4_buttons_unique_witness :
  new_ActionButtons []
    = Throw "Reply buttons must have between 1 and 3 buttons" /\
  new_ActionButtons [yes_button; maybe_button]
    = Throw "Reply buttons must have unique ids" /\
  new_ActionButtons [yes_button; yes_again_button]
    = Throw "Reply buttons must have unique titles" /\
  new_ActionButtons [yes_button; no_button]
    = Ok {| ActionButtons_buttons := [yes_button; no_button];
            ActionButtons_tag := Some "button" |}.
Proof.
  split; [|split; [|split]].
  - apply (C4_buttons_unique []). left. reflexivity.
  - destruct (C4_buttons_unique [yes_button; maybe_button])
      as (_ & Hid & _ & _).
    apply (Hid 0 1 yes_button maybe_button);
      [lia | reflexivity | reflexivity | reflexivity | simpl; lia].
  - destruct (C4_buttons_unique [yes_button; yes_again_button])
      as (_ & _ & Htitle & _).
    apply (Htitle 0 1 yes_button yes_again_button);
      [lia | reflexivity | reflexivity | reflexivity | simpl; lia |].
    apply (bool_decide_eq_true_1 _). vm_compute. reflexivity.
  - apply (C4_buttons_unique [yes_button; no_button]).
    + simpl; lia.
    + apply (bool_decide_eq_true_1 _). vm_compute. reflexivity.
    + apply (bool_decide_eq_true_1 _). vm_compute. reflexivity.
Defined.

(** ** The two modes of ActionCatalog (C3) *)

(** C3.  With a non-empty catalog id, ActionCatalog
    - given one Product, succeeds with the discriminant "product" and stores
      the retailer id of the product;
    - given two or more Products, fails;
    - given two ProductSections that both have a title, succeeds with the
      discriminant "product_list" and stores the two sections in order;
    - given two ProductSections one of which has no title, fails where a
      declared field is on the instance only once it is assigned.  Where
      declared fields are defined on every instance, the own property [title]
      is there on every section, the test for it never fires and the
      ActionCatalog is built, against what the constructor documents. *)
Theorem C3_catalog_modes (fields : ClassFields) (catalog_id : string) :
  catalog_id <> "" ->
  (forall p,
     new_ActionCatalog fields catalog_id [AProduct p]
       = Ok {| ActionCatalog_catalog_id := catalog_id;
               ActionCatalog_product_retailer_id :=
                 Some (Product_product_retailer_id p);
               ActionCatalog_sections := None;
               ActionCatalog_tag := Some "product" |}) /\
  (forall ps, 2 <= length ps ->
     new_ActionCatalog fields catalog_id (map AProduct ps)
       = Throw "Catalog must have only 1 product, use a ProductSection instead") /\
  (forall s1 s2,
     is_Some (ProductSection_title s1) -> is_Some (ProductSection_title s2) ->
     new_ActionCatalog fields catalog_id [ASection s1; ASection s2]
       = Ok {| ActionCatalog_catalog_id := catalog_id;
               ActionCatalog_product_retailer_id := None;
               ActionCatalog_sections := Some [ASection s1; ASection s2];
               ActionCatalog_tag := Some "product_list" |}) /\
  (forall s1 s2,
     ProductSection_title s1 = None \/ ProductSection_title s2 = None ->
     new_ActionCatalog fields catalog_id [ASection s1; ASection s2]
       = match fields with
         | AssignedFields =>
             Throw "All sections must have a title if more than 1 section is provided"
         | DefinedFields =>
             Ok {| ActionCatalog_catalog_id := catalog_id;
                   ActionCatalog_product_retailer_id := None;
                   ActionCatalog_sections := Some [ASection s1; ASection s2];
                   ActionCatalog_tag := Some "product_list" |}
         end).
Proof.
  intros Hid. apply truthy_nonempty in Hid.
  split; [|split; [|split]].
  - intros p. unfold new_ActionCatalog. rewrite Hid. reflexivity.
  - intros [|p [|q ps]] Hlen; simpl in Hlen; try lia.
    unfold new_ActionCatalog. rewrite Hid. reflexivity.
  - intros s1 s2 [t1 H1] [t2 H2].
    unfold new_ActionCatalog. rewrite Hid. simpl.
    rewrite H1, H2. destruct fields; reflexivity.
  - intros s1 s2 Hnone. unfold new_ActionCatalog. rewrite Hid. simpl.
    destruct fields; [reflexivity|]. simpl.
    destruct (ProductSection_title s1) as [t1|]; [|reflexivity].
    destruct Hnone as [Hnone|Hnone]; [discriminate|].
    rewrite Hnone. reflexivity.
Qed.

Lemma C3_catalog_modes_witness :
  new_ActionCatalog DefinedFields "cat1" [AProduct sku1]
    = Ok {| ActionCatalog_catalog_id := "cat1";
            ActionCatalog_product_retailer_id := Some "sku1";
            ActionCatalog_sections := None;
            ActionCatalog_tag := Some "product" |} /\
  new_ActionCatalog DefinedFields "cat1" [AProduct sku1; AProduct sku2]
    = Throw "Catalog must have only 1 product, use a ProductSection instead" /\
  new_ActionCatalog DefinedFields "cat1" [ASection shoes; ASection hats]
    = Ok {| ActionCatalog_catalog_id := "cat1";
            ActionCatalog_product_retailer_id := None;
            ActionCatalog_sections := Some [ASection shoes; ASection hats];
            ActionCatalog_tag := Some "product_list" |} /\
  new_ActionCatalog DefinedFields "cat1" [ASection shoes; ASection untitled]
    = Ok {| ActionCatalog_catalog_id := "cat1";
            ActionCatalog_product_retailer_id := None;
            ActionCatalog_sections := Some [ASection shoes; ASection untitled];
            ActionCatalog_tag := Some "product_list" |} /\
  new_ActionCatalog AssignedFields "cat1" [ASection shoes; ASection untitled]
    = Throw "All sections must have a title if more than 1 section is provided".
Proof.
  assert (Hcat : "cat1" <> "") by discriminate.
  destruct (C3_catalog_modes DefinedFields "cat1" Hcat)
    as (One & Many & Titled & Untitled).
  destruct (C3_catalog_modes AssignedFields "cat1" Hcat)
    as (_ & _ & _ & Assigned).
  split; [apply One|].
  split; [apply (Many [sku1; sku2]); simpl; lia|].
  split; [apply Titled; eexists; reflexivity|].
  split; [apply (Untitled shoes untitled); right; reflexivity|].
  apply (Assigned shoes untitled). right. reflexivity.
Defined.

(** ** Header (C6, C7) *)

Lemma header_type_truthy (tag : string) : tag ∈ header_types -> truthy tag = true.
Proof.
  unfold header_types. rewrite !elem_of_cons, elem_of_nil.
  intros [->|[->|[->|[->|[]]]]]; reflexivity.
Qed.

(** Header on a Text: the Text is left as it is. *)
Lemma new_Header_text (t : Text) (tag : string) :
  Text_tag t = Some tag -> tag ∈ header_types ->
  new_Header (Some (OfText t)) =
    (if longer_than (Text_body t) 60
     then Throw "Header text must be 60 characters or less"
     else Ok (<[ tag := HString (Text_body t) ]> {[ "type" := HString tag ]}),
     Some (OfText t)).
Proof.
  intros Htag Hin.
  unfold new_Header, on_defined, cbind, cget, lift, defined_tag. simpl.
  rewrite Htag, (header_type_truthy tag Hin).
  rewrite (bool_decide_eq_true_2 _ Hin). simpl.
  destruct (longer_than (Text_body t) 60); reflexivity.
Qed.

(** Header on a media object: the discriminant is deleted from the object
    before the caption is looked for. *)
Lemma new_Header_media (m : Media) (tag : string) :
  m !! "_" = Some tag -> tag ∈ header_types ->
  new_Header (Some (OfMedia m)) =
    (if bool_decide (is_Some (delete "_" m !! "caption"))
     then Throw ("Header " ++ tag ++ " must not have a caption")
     else Ok (<[ tag := HMedia (delete "_" m) ]> {[ "type" := HString tag ]}),
     Some (OfMedia (delete "_" m))).
Proof.
  intros Htag Hin.
  unfold new_Header, on_defined, cbind, cget, lift, defined_tag. simpl.
  rewrite Htag, (header_type_truthy tag Hin).
  rewrite (bool_decide_eq_true_2 _ Hin). simpl.
  destruct (bool_decide (is_Some (delete "_" m !! "caption"))); reflexivity.
Qed.

Lemma media_types_header_types (tag : string) :
  tag ∈ media_types -> tag ∈ header_types.
Proof.
  unfold media_types, header_types. rewrite !elem_of_cons, !elem_of_nil.
  tauto.
Qed.

(** C6.  Header rejects a Text whose body is longer than 60 characters,
    bodies that Body accepts up to 1024 characters among them, and accepts a
    Text of at most 60 characters.  It rejects an image, a video or a document
    that has a caption, and accepts the same object once the caption is
    removed. *)
Theorem C6_header_rules :
  (forall t, Text_tag t = Some "text" ->
     (60 < String.length (Text_body t) ->
        fst (new_Header (Some (OfText t)))
          = Throw "Header text must be 60 characters or less") /\
     (String.length (Text_body t) <= 60 ->
        fst (new_Header (Some (OfText t)))
          = Ok (<[ "text" := HString (Text_body t) ]>
                  {[ "type" := HString "text" ]})) /\
     (60 < String.length (Text_body t) <= 1024 ->
        new_Body (Text_body t) = Ok {| Body_text := Text_body t |})) /\
  (forall (m : Media) tag,
     m !! "_" = Some tag -> tag ∈ media_types ->
     (is_Some (m !! "caption") ->
        fst (new_Header (Some (OfMedia m)))
          = Throw ("Header " ++ tag ++ " must not have a caption")) /\
     fst (new_Header (Some (OfMedia (delete "caption" m))))
       = Ok (<[ tag := HMedia (delete "_" (delete "caption" m)) ]>
               {[ "type" := HString tag ]})).
Proof.
  split.
  - intros t Htag.
    assert (Hin : "text" ∈ header_types) by constructor.
    rewrite (new_Header_text t "text" Htag Hin). simpl.
    split; [|split].
    + intros Hlen. apply longer_than_true in Hlen. rewrite Hlen. reflexivity.
    + intros Hlen. apply longer_than_false in Hlen. rewrite Hlen. reflexivity.
    + intros [Hlo Hhi]. unfold new_Body.
      rewrite !throw_if_false; [reflexivity| |].
      * apply longer_than_false, Hhi.
      * rewrite truthy_length by lia. reflexivity.
  - intros m tag Htag Hmedia.
    assert (Hne : tag <> "caption").
    { intros ->. unfold media_types in Hmedia.
      rewrite !elem_of_cons, elem_of_nil in Hmedia.
      destruct Hmedia as [E|[E|[E|[]]]]; discriminate E. }
    assert (Htag_ne : "_" <> "caption") by discriminate.
    apply media_types_header_types in Hmedia.
    split.
    + intros Hcap. rewrite (new_Header_media m tag Htag Hmedia). simpl.
      rewrite bool_decide_eq_true_2; [reflexivity|].
      rewrite lookup_delete_ne by exact Htag_ne. exact Hcap.
    + rewrite (new_Header_media (delete "caption" m) tag); [|  |exact Hmedia].
      * simpl. rewrite bool_decide_eq_false_2; [reflexivity|].
        rewrite lookup_delete_ne by exact Htag_ne.
        rewrite lookup_delete_eq. apply is_Some_None.
      * rewrite lookup_delete_ne by (intros E; apply Htag_ne; symmetry; exact E).
        exact Htag.
Qed.

Lemma C6_header_rules_witness :
  fst (new_Header (Some (OfText long_text)))
    = Throw "Header text must be 60 characters or less" /\
  new_Body (Text_body long_text) = Ok {| Body_text := Text_body long_text |} /\
  fst (new_Header (Some (OfText hi_text)))
    = Ok (<[ "text" := HString "Hi" ]> {[ "type" := HString "text" ]}) /\
  fst (new_Header (Some (OfMedia captioned_image)))
    = Throw "Header image must not have a caption" /\
  fst (new_Header (Some (OfMedia (delete "caption" captioned_image))))
    = Ok (<[ "image" := HMedia (delete "_" (delete "caption" captioned_image)) ]>
            {[ "type" := HString "image" ]}).
Proof.
  destruct C6_header_rules as [OnText OnMedia].
  destruct (OnText long_text eq_refl) as (Long & _ & Body).
  destruct (OnText hi_text eq_refl) as (_ & Short & _).
  assert (Htag : captioned_image !! "_" = Some "image")
    by (vm_compute; reflexivity).
  assert (Hin : "image" ∈ media_types) by constructor.
  destruct (OnMedia captioned_image "image" Htag Hin) as [Caption NoCaption].
  split; [apply Long; simpl; lia|].
  split; [apply Body; simpl; lia|].
  split; [apply Short; simpl; lia|].
  split; [|exact NoCaption].
  apply Caption. exists "A cat". vm_compute. reflexivity.
Defined.

(** C7.  Header on the Text of body "Hi" is built; its [type] is "text", its
    [text] is the string "Hi", and it has no other property: in particular no
    discriminant [_]. *)
Theorem C7_header_of_hi :
  exists h : Header,
    fst (new_Header (Some (OfText {| Text_body := "Hi";
                                     Text_tag := Some "text" |}))) = Ok h /\
    h !! "type" = Some (HString "text") /\
    h !! "text" = Some (HString "Hi") /\
    h !! "_" = None /\
    (forall k, is_Some (h !! k) <-> k = "type" \/ k = "text").
Proof.
  eexists. split; [reflexivity|].
  split; [reflexivity|]. split; [reflexivity|]. split; [reflexivity|].
  intros k. rewrite lookup_insert_is_Some, lookup_singleton_is_Some.
  split.
  - intros [E|[_ E]]; [right|left]; symmetry; exact E.
  - intros [-> | ->]; [right; split; [discriminate|reflexivity]|left; reflexivity].
Qed.

(** ** Interactive (C1) *)

Lemma header_type_is_not_text_false (header : option Header) :
  header_type_is_not_text header = false <-> header_is_text header.
Proof.
  unfold header_type_is_not_text, header_is_text. split.
  - destruct header as [h|]; [|discriminate].
    destruct (h !! "type") as [[t|m]|] eqn:E; try discriminate.
    rewrite negb_false_iff, String.eqb_eq. intros ->. eauto.
  - intros (h & -> & ->). reflexivity.
Qed.

(** What an Interactive construction returns and what it leaves of the
    action, check by check. *)
Lemma new_Interactive_cases (body : option Body) (header : option Header)
    (footer : option Footer) (action : Action) (tag : string) :
  Action_tag action = Some tag -> truthy tag = true ->
  new_Interactive body header footer (Some action) =
    if negb (String.eqb tag "product") && negb (bool_decide (is_Some body))
    then (Throw "Interactive must have a body component", Some action)
    else if String.eqb tag "product" && bool_decide (is_Some header)
    then (Throw "Interactive must not have a header component if action is a single product",
          Some action)
    else if String.eqb tag "product_list" && header_type_is_not_text header
    then (Throw "Interactive must have a Text header component if action is a product list",
          Some action)
    else if bool_decide (is_Some header) && negb (String.eqb tag "button")
            && header_type_is_not_text header
    then (Throw "Interactive header must be of type Text", Some action)
    else (Ok {| Interactive_type := tag;
                Interactive_action := Action_delete_tag action;
                Interactive_body := body;
                Interactive_header := header;
                Interactive_footer := footer;
                Interactive_tag := Some "interactive" |},
          Some (Action_delete_tag action)).
Proof.
  intros Htag Htruthy.
  unfold new_Interactive, on_defined, cbind, cget, lift, defined_tag.
  rewrite Htag, Htruthy.
  unfold cthrow_if, cthrow, cret, cmodify.
  case_checks ltac:(try reflexivity).
Qed.

(** C1.  The rules of Interactive, by the discriminant of the action.
    - "product": construction succeeds exactly when no header is supplied,
      with or without a body.
    - "product_list": construction fails unless a header of type "text" is
      supplied; with one, it succeeds exactly when a body is supplied, the
      body being required in every mode but "product".
    - "list": construction succeeds exactly when a body is supplied and the
      header, if there is one, has type "text".
    - "button": construction succeeds exactly when a body is supplied,
      whatever the header. *)
Theorem C1_interactive_modes (action : Action) (body : option Body)
    (header : option Header) (footer : option Footer) :
  let outcome := fst (new_Interactive body header footer (Some action)) in
  (Action_tag action = Some "product" ->
     (is_ok outcome = true <-> header = None)) /\
  (Action_tag action = Some "product_list" ->
     (~ header_is_text header -> is_ok outcome = false) /\
     (is_ok outcome = true <-> is_Some body /\ header_is_text header)) /\
  (Action_tag action = Some "list" ->
     (is_ok outcome = true <->
      is_Some body /\ (header = None \/ header_is_text header))) /\
  (Action_tag action = Some "button" ->
     (is_ok outcome = true <-> is_Some body)).
Proof.
  cbv zeta.
  assert (Hnot : forall h : option Header,
            header_type_is_not_text h = true -> ~ header_is_text h).
  { intros h E Ht. apply header_type_is_not_text_false in Ht. congruence. }
  pose proof (@is_Some_None Body) as Hbody.
  assert (Hsupplied : header_is_text header -> header <> None)
    by (intros (h & -> & _); discriminate).
  split; [|split; [|split]]; intros Htag;
    rewrite (new_Interactive_cases _ _ _ _ _ Htag eq_refl);
    (destruct (header_type_is_not_text header) eqn:E;
       [apply Hnot in E | apply header_type_is_not_text_false in E]);
    destruct body as [b|], header as [h|]; simpl;
    repeat split; intros; try reflexivity; try discriminate; eauto;
    intuition congruence.
Qed.

Lemma C1_interactive_modes_witness :
  is_ok (fst (new_Interactive None None None
                (Some single_product_action))) = true /\
  is_ok (fst (new_Interactive (Some pick_one) None None
                (Some product_list_action))) = false /\
  is_ok (fst (new_Interactive (Some pick_one) (Some text_header) None
                (Some list_action))) = true /\
  is_ok (fst (new_Interactive (Some pick_one) (Some image_header) None
                (Some buttons_action))) = true.
Proof.
  assert (Htext : header_is_text (Some text_header))
    by (exists text_header; split; reflexivity).
  split; [|split; [|split]].
  - destruct (C1_interactive_modes single_product_action None None None)
      as (Product & _).
    apply (Product eq_refl). reflexivity.
  - destruct (C1_interactive_modes product_list_action (Some pick_one) None None)
      as (_ & ProductList & _).
    apply (ProductList eq_refl).
    intros (h & E & _). discriminate E.
  - destruct (C1_interactive_modes list_action (Some pick_one)
                (Some text_header) None) as (_ & _ & List & _).
    apply (List eq_refl). split; [eexists; reflexivity|right; exact Htext].
  - destruct (C1_interactive_modes buttons_action (Some pick_one)
                (Some image_header) None) as (_ & _ & _ & Buttons).
    apply (Buttons eq_refl). eexists; reflexivity.
Defined.

(** ** What construction leaves of its arguments (C2) *)

(** C2, as stated, fails: a successful Interactive construction deletes the
    discriminant of the action it was given, and a successful Header
    construction deletes the discriminant of the image it was given. *)
Lemma C2_discriminant_is_deleted :
  (let call := new_Interactive (Some pick_one) None None (Some continue_action) in
   is_ok (fst call) = true /\
   Action_tag continue_action = Some "button" /\
   snd call <> Some continue_action /\
   Action_tag <$> snd call = Some None) /\
  (let call := new_Header (Some (OfMedia plain_image)) in
   is_ok (fst call) = true /\
   plain_image !! "_" = Some "image" /\
   snd call <> Some (OfMedia plain_image) /\
   snd call = Some (OfMedia {[ "id" := "1" ]})).
Proof.
  split; cbv zeta.
  - split; [reflexivity|]. split; [reflexivity|].
    split; [discriminate|reflexivity].
  - assert (Htag : plain_image !! "_" = Some "image")
      by (vm_compute; reflexivity).
    assert (Hin : "image" ∈ header_types) by (repeat constructor).
    rewrite (new_Header_media plain_image "image" Htag Hin).
    assert (Hdel : delete "_" plain_image = ({[ "id" := "1" ]} : Media)).
    { unfold plain_image. rewrite delete_insert_eq. apply delete_id.
      vm_compute. reflexivity. }
    rewrite Hdel.
    assert (Hcap : bool_decide (is_Some (({[ "id" := "1" ]} : Media) !! "caption"))
                   = false) by (vm_compute; reflexivity).
    rewrite Hcap. cbn [fst snd is_ok].
    split; [reflexivity|]. split; [exact Htag|]. split; [|reflexivity].
    intros E.
    apply (f_equal (fun o => match o with
                             | Some (OfMedia m) => m !! "_"
                             | _ => None
                             end)) in E.
    cbv beta iota in E. rewrite Htag in E. vm_compute in E. discriminate E.
Qed.

(** Header on an object whose discriminant is missing or not a header type:
    the object is left as it is. *)
Lemma new_Header_rejected_tag (object : HeaderObject) :
  (forall tag, HeaderObject_tag object = Some tag -> tag ∉ header_types) ->
  is_ok (fst (new_Header (Some object))) = false /\
  snd (new_Header (Some object)) = Some object.
Proof.
  intros Hout.
  unfold new_Header, on_defined, cbind, cget, lift, defined_tag. simpl.
  destruct (HeaderObject_tag object) as [tag|]; [|split; reflexivity].
  destruct (truthy tag); [|split; reflexivity].
  rewrite (bool_decide_eq_false_2 _ (Hout tag eq_refl)).
  split; reflexivity.
Qed.

(** [delete action._] keeps the class of the action and every field but the
    discriminant. *)
Lemma Action_delete_tag_fields (action : Action) :
  Action_tag (Action_delete_tag action) = None /\
  match action, Action_delete_tag action with
  | OfActionList a, OfActionList a' =>
      ActionList_button a' = ActionList_button a /\
      ActionList_sections a' = ActionList_sections a
  | OfActionButtons a, OfActionButtons a' =>
      ActionButtons_buttons a' = ActionButtons_buttons a
  | OfActionCatalog a, OfActionCatalog a' =>
      ActionCatalog_catalog_id a' = ActionCatalog_catalog_id a /\
      ActionCatalog_product_retailer_id a'
        = ActionCatalog_product_retailer_id a /\
      ActionCatalog_sections a' = ActionCatalog_sections a
  | _, _ => False
  end.
Proof. destruct action; simpl; auto. Qed.

(** The instance and the caller hold the same action object: once an
    Interactive has been built from it, a second construction from that
    object finds no discriminant and throws. *)
Lemma new_Interactive_twice (body body' : option Body)
    (header header' : option Header) (footer footer' : option Footer)
    (action : option Action) :
  is_ok (fst (new_Interactive body header footer action)) = true ->
  fst (new_Interactive body' header' footer'
         (snd (new_Interactive body header footer action)))
    = Throw "Unexpected internal error (action._ is not defined)".
Proof.
  destruct action as [action|]; [|discriminate].
  destruct (Action_tag action) as [tag|] eqn:Htag; cycle 1.
  { unfold new_Interactive, on_defined, cbind, cget, lift, defined_tag.
    rewrite Htag. discriminate. }
  destruct (truthy tag) eqn:Htruthy; cycle 1.
  { unfold new_Interactive, on_defined, cbind, cget, lift, defined_tag.
    rewrite Htag, Htruthy. discriminate. }
  rewrite (new_Interactive_cases _ _ _ _ _ Htag Htruthy).
  case_checks ltac:(simpl); try discriminate.
  intros _.
  unfold new_Interactive, on_defined, cbind, cget, lift, defined_tag.
  destruct action; reflexivity.
Qed.

(** C2, amended.  Construction writes to nothing but the discriminant [_] of
    its argument.
    - Interactive: when it throws, the action is as it was; when it succeeds,
      the action has lost its discriminant and kept every other field.
    - Header on a Text: the Text is as it was, whether construction succeeds
      or throws.
    - Header on a media object: every property other than [_] is as it was,
      whether construction succeeds or throws; when it succeeds, the object
      has lost its discriminant. *)
Theorem C2_only_discriminant_written :
  (forall body header footer action,
     let call := new_Interactive body header footer (Some action) in
     (is_ok (fst call) = false -> snd call = Some action) /\
     (is_ok (fst call) = true ->
        is_Some (Action_tag action) /\
        snd call = Some (Action_delete_tag action))) /\
  (forall t, snd (new_Header (Some (OfText t))) = Some (OfText t)) /\
  (forall m : Media,
     exists m' : Media,
       snd (new_Header (Some (OfMedia m))) = Some (OfMedia m') /\
       (forall k, k <> "_" -> m' !! k = m !! k) /\
       (is_ok (fst (new_Header (Some (OfMedia m)))) = true ->
          is_Some (m !! "_") /\ m' = delete "_" m)).
Proof.
  split; [|split].
  - intros body header footer action. cbv zeta.
    destruct (Action_tag action) as [tag|] eqn:Htag; cycle 1.
    { unfold new_Interactive, on_defined, cbind, cget, lift, defined_tag.
      rewrite Htag. simpl. split; [reflexivity|discriminate]. }
    destruct (truthy tag) eqn:Htruthy; cycle 1.
    { unfold new_Interactive, on_defined, cbind, cget, lift, defined_tag.
      rewrite Htag, Htruthy. simpl. split; [reflexivity|discriminate]. }
    rewrite (new_Interactive_cases _ _ _ _ _ Htag Htruthy).
    case_checks ltac:(simpl);
      (split; intros Hr;
         [reflexivity || discriminate Hr
         |discriminate Hr || (split; [eauto|reflexivity])]).
  - intros t.
    destruct (Text_tag t) as [tag|] eqn:Htag;
      [destruct (decide (tag ∈ header_types)) as [Hin|Hout]|].
    + rewrite (new_Header_text t tag Htag Hin). reflexivity.
    + apply new_Header_rejected_tag. simpl. rewrite Htag.
      intros tag' [= <-]. exact Hout.
    + apply new_Header_rejected_tag. simpl. rewrite Htag. discriminate.
  - intros m.
    destruct (m !! "_") as [tag|] eqn:Htag;
      [destruct (decide (tag ∈ header_types)) as [Hin|Hout]|].
    + exists (delete "_" m).
      rewrite (new_Header_media m tag Htag Hin). simpl.
      split; [reflexivity|].
      split; [intros k Hk; apply lookup_delete_ne; congruence|].
      intros _. split; [eauto|reflexivity].
    + exists m.
      destruct (new_Header_rejected_tag (OfMedia m)) as [Hfail Hsame].
      { simpl. rewrite Htag. intros tag' [= <-]. exact Hout. }
      rewrite Hfail, Hsame.
      split; [reflexivity|]. split; [reflexivity|discriminate].
    + exists m.
      destruct (new_Header_rejected_tag (OfMedia m)) as [Hfail Hsame].
      { simpl. rewrite Htag. discriminate. }
      rewrite Hfail, Hsame.
      split; [reflexivity|]. split; [reflexivity|discriminate].
Qed.

Lemma C2_only_discriminant_written_witness :
  snd (new_Interactive None None None (Some continue_action))
    = Some continue_action /\
  snd (new_Interactive (Some pick_one) None None (Some continue_action))
    = Some (Action_delete_tag continue_action).
Proof.
  destruct C2_only_discriminant_written as (OnAction & _ & _).
  split.
  - apply (OnAction None None None continue_action). reflexivity.
  - apply (OnAction (Some pick_one) None None continue_action). reflexivity.
Defined.

(** ** Location (C10) *)

(** C10.  Once the constructor of the base class has returned, Location is
    built from any two numbers, NaN and the infinities among them, and any
    name and address: nothing is validated.  A name or an address that is
    absent or empty is left out of the instance; a non-empty one is stored,
    the address also when there is no name. *)
Theorem C10_location_is_total (ClientMessage_super : result unit)
    (longitude latitude : number) (name address : option string) :
  ClientMessage_super = Ok tt ->
  exists l : Location,
    new_Location ClientMessage_super longitude latitude name address = Ok l /\
    Location_longitude l = longitude /\
    Location_latitude l = latitude /\
    (name = None \/ name = Some "" -> Location_name l = None) /\
    (forall s, name = Some s -> s <> "" -> Location_name l = Some s) /\
    (address = None \/ address = Some "" -> Location_address l = None) /\
    (forall s, address = Some s -> s <> "" -> Location_address l = Some s).
Proof.
  intros ->. eexists. split; [reflexivity|]. simpl.
  split; [reflexivity|]. split; [reflexivity|].
  split; [intros [-> | ->]; reflexivity|].
  split.
  { intros s -> Hs. apply truthy_nonempty in Hs. simpl. rewrite Hs.
    reflexivity. }
  split; [intros [-> | ->]; reflexivity|].
  intros s -> Hs. apply truthy_nonempty in Hs. simpl. rewrite Hs.
  reflexivity.
Qed.

Lemma C10_location_is_total_witness :
  new_Location (Ok tt) S754_nan (S754_infinity true) (Some "") (Some "Main St")
    = Ok {| Location_longitude := S754_nan;
            Location_latitude := S754_infinity true;
            Location_name := None;
            Location_address := Some "Main St" |}.
Proof.
  destruct (C10_location_is_total (Ok tt) S754_nan (S754_infinity true)
              (Some "") (Some "Main St") eq_refl)
    as (l & Hnew & Hlon & Hlat & Hname & _ & _ & Haddress).
  rewrite Hnew. destruct l as [lon lat nm ad]. simpl in *.
  rewrite Hlon, Hlat, (Hname (or_intror eq_refl)).
  rewrite (Haddress "Main St" eq_refl ltac:(discriminate)).
  reflexivity.
Defined.

(** ** The sample inputs are what the constructors build *)

Example yes_button_built : new_Button "yes" "Yes" = Ok yes_button.
Proof. reflexivity. Qed.

Example buttons_action_built :
  match new_ActionButtons [yes_button; no_button] with
  | Ok a => OfActionButtons a = buttons_action
  | Throw _ => False
  end.
Proof. vm_compute. reflexivity. Qed.

Example single_product_action_built (fields : ClassFields) :
  match new_ActionCatalog fields "cat1" [AProduct sku1] with
  | Ok a => OfActionCatalog a = single_product_action
  | Throw _ => False
  end.
Proof. destruct fields; reflexivity. Qed.

Example product_list_action_built (fields : ClassFields) :
  match new_ActionCatalog fields "cat1" [ASection shoes; ASection hats] with
  | Ok a => OfActionCatalog a = product_list_action
  | Throw _ => False
  end.
Proof. destruct fields; reflexivity. Qed.

Example text_header_built :
  fst (new_Header (Some (OfText hi_text))) = Ok text_header.
Proof. reflexivity. Qed.

(** * Further properties of the constructors *)

(** ** Header: what is built, what is refused, what is left of the object *)

Lemma header_type_not_type (tag : string) : tag ∈ header_types -> tag <> "type".
Proof.
  unfold header_types. rewrite !elem_of_cons, elem_of_nil.
  intros [E|[E|[E|[E|[]]]]] ->; discriminate E.
Qed.

(** Header, on an object whose discriminant is there but is none of the four
    header types. *)
Lemma new_Header_unsupported (object : HeaderObject) (tag : string) :
  HeaderObject_tag object = Some tag -> tag <> "" -> tag ∉ header_types ->
  new_Header (Some object) =
    (Throw "Header object must be either Text, Video, Image or Document.",
     Some object).
Proof.
  intros Htag Hne Hout. apply truthy_nonempty in Hne.
  unfold new_Header, on_defined, cbind, cget, lift, defined_tag. simpl.
  rewrite Htag, Hne, (bool_decide_eq_false_2 _ Hout). reflexivity.
Qed.

(** Header, on an object that has no discriminant, or an empty one. *)
Lemma new_Header_no_tag (object : HeaderObject) :
  HeaderObject_tag object = None \/ HeaderObject_tag object = Some "" ->
  new_Header (Some object) =
    (Throw "Unexpected internal error (object._ is not defined)", Some object).
Proof.
  intros Htag.
  unfold new_Header, on_defined, cbind, cget, lift, defined_tag. simpl.
  destruct Htag as [-> | ->]; reflexivity.
Qed.



(** X2.  A media object serves one Header construction only.  Once Header has
    read a supported discriminant from it, the object has lost that
    discriminant, whether the construction succeeded or threw for a caption;
    every later construction from the object throws the internal error, also
    after the caption has been removed from it. *)
Theorem X2_media_single_use (m : Media) (tag : string) :
  m !! "_" = Some tag -> tag ∈ header_types ->
  let after := delete "_" m in
  snd (new_Header (Some (OfMedia m))) = Some (OfMedia after) /\
  fst (new_Header (Some (OfMedia after)))
    = Throw "Unexpected internal error (object._ is not defined)" /\
  fst (new_Header (Some (OfMedia (delete "caption" after))))
    = Throw "Unexpected internal error (object._ is not defined)".
Proof.
  intros Htag Hin. cbv zeta.
  rewrite (new_Header_media m tag Htag Hin).
  split; [reflexivity|].
  split; rewrite new_Header_no_tag; try reflexivity; left; simpl.
  - apply lookup_delete_eq.
  - rewrite lookup_delete_ne by discriminate. apply lookup_delete_eq.
Qed.

Lemma X2_media_single_use_witness :
  fst (new_Header (Some (OfMedia captioned_image)))
    = Throw "Header image must not have a caption" /\
  fst (new_Header
         (Some (OfMedia (delete "caption" (delete "_" captioned_image)))))
    = Throw "Unexpected internal error (object._ is not defined)".
Proof.
  assert (Htag : captioned_image !! "_" = Some "image")
    by (vm_compute; reflexivity).
  assert (Hin : "image" ∈ header_types) by (repeat constructor).
  destruct (X2_media_single_use captioned_image "image" Htag Hin)
    as (_ & _ & Hretry).
  split; [|exact Hretry].
  rewrite (new_Header_media captioned_image "image" Htag Hin).
  vm_compute. reflexivity.
Defined.

(** X3.  Header refuses an object whose discriminant is none of "text",
    "video", "image", "document" (an audio or a sticker, say), and an object
    without discriminant; in both cases the object is left as it was. *)
Theorem X3_Header_refusals (object : HeaderObject) :
  (forall tag,
     HeaderObject_tag object = Some tag -> tag <> "" -> tag ∉ header_types ->
     new_Header (Some object) =
       (Throw "Header object must be either Text, Video, Image or Document.",
        Some object)) /\
  (HeaderObject_tag object = None ->
     new_Header (Some object) =
       (Throw "Unexpected internal error (object._ is not defined)",
        Some object)).
Proof.
  split.
  - intros tag. apply new_Header_unsupported.
  - intros Htag. apply new_Header_no_tag. left. exact Htag.
Qed.

Lemma X3_Header_refusals_witness :
  new_Header (Some (OfMedia voice_note)) =
    (Throw "Header object must be either Text, Video, Image or Document.",
     Some (OfMedia voice_note)).
Proof.
  destruct (X3_Header_refusals (OfMedia voice_note)) as [Unsupported _].
  apply (Unsupported "audio").
  - vm_compute. reflexivity.
  - discriminate.
  - unfold header_types. rewrite !not_elem_of_cons.
    repeat split; try discriminate. apply not_elem_of_nil.
Defined.

(** ** Interactive: what is built, which error is reported *)

Lemma new_Interactive_no_tag (body : option Body) (header : option Header)
    (footer : option Footer) (action : Action) :
  Action_tag action = None \/ Action_tag action = Some "" ->
  new_Interactive body header footer (Some action) =
    (Throw "Unexpected internal error (action._ is not defined)", Some action).
Proof.
  intros Htag.
  unfold new_Interactive, on_defined, cbind, cget, lift, defined_tag.
  destruct Htag as [-> | ->]; reflexivity.
Qed.

Lemma Action_tag_cases (action : Action) :
  Action_tag action = None \/ Action_tag action = Some "" \/
  exists tag, Action_tag action = Some tag /\ truthy tag = true.
Proof.
  destruct (Action_tag action) as [tag|]; [|left; reflexivity].
  right. destruct tag as [|c tag]; [left; reflexivity|].
  right. eexists. split; reflexivity.
Qed.

(** X4.  An action object serves one Interactive construction only: the
    instance keeps the caller's object, from which the discriminant has been
    deleted, so that any later construction from that object, with whatever
    body, header and footer, throws the internal error and changes nothing. *)
Theorem X4_action_single_use (body body' : option Body)
    (header header' : option Header) (footer footer' : option Footer)
    (action : Action) :
  is_ok (fst (new_Interactive body header footer (Some action))) = true ->
  let after := snd (new_Interactive body header footer (Some action)) in
  after = Some (Action_delete_tag action) /\
  new_Interactive body' header' footer' after =
    (Throw "Unexpected internal error (action._ is not defined)", after).
Proof.
  intros Hok. cbv zeta.
  destruct (Action_tag_cases action) as [Htag|[Htag|(tag & Htag & Htruthy)]].
  - rewrite new_Interactive_no_tag in Hok by (left; exact Htag).
    discriminate Hok.
  - rewrite new_Interactive_no_tag in Hok by (right; exact Htag).
    discriminate Hok.
  - rewrite (new_Interactive_cases _ _ _ _ _ Htag Htruthy) in Hok |- *.
    revert Hok. case_checks ltac:(simpl); try discriminate. intros _.
    split; [reflexivity|].
    apply new_Interactive_no_tag. left. apply Action_delete_tag_fields.
Qed.

Lemma X4_action_single_use_witness :
  new_Interactive (Some pick_one) None None
    (snd (new_Interactive (Some pick_one) None None (Some continue_action)))
  = (Throw "Unexpected internal error (action._ is not defined)",
     Some (Action_delete_tag continue_action)).
Proof.
  destruct (X4_action_single_use (Some pick_one) (Some pick_one) None None
              None None continue_action eq_refl) as [Hafter Hagain].
  rewrite Hagain, Hafter. reflexivity.
Defined.

(** X5.  Every Interactive that is built satisfies the rules it was checked
    against.  Its [type] is the discriminant the action had, its [_] is
    "interactive", its action is the caller's object without discriminant, and
    body, header and footer are the arguments; there is a body unless the type
    is "product", no header when the type is "product", and a header other
    than a text one only when the type is "button". *)
Theorem X5_Interactive_built_shape (body : option Body)
    (header : option Header) (footer : option Footer) (action : Action)
    (i : Interactive) :
  fst (new_Interactive body header footer (Some action)) = Ok i ->
  Action_tag action = Some (Interactive_type i) /\
  Interactive_type i <> "" /\
  Interactive_tag i = Some "interactive" /\
  Interactive_action i = Action_delete_tag action /\
  snd (new_Interactive body header footer (Some action))
    = Some (Interactive_action i) /\
  Interactive_body i = body /\
  Interactive_header i = header /\
  Interactive_footer i = footer /\
  (Interactive_type i <> "product" -> is_Some body) /\
  (Interactive_type i = "product" -> header = None) /\
  (Interactive_type i = "product_list" -> header_is_text header) /\
  (Interactive_type i <> "button" -> header = None \/ header_is_text header).
Proof.
  intros Hbuilt.
  destruct (Action_tag_cases action) as [Htag|[Htag|(tag & Htag & Htruthy)]].
  - rewrite new_Interactive_no_tag in Hbuilt by (left; exact Htag).
    discriminate Hbuilt.
  - rewrite new_Interactive_no_tag in Hbuilt by (right; exact Htag).
    discriminate Hbuilt.
  - rewrite (new_Interactive_cases _ _ _ _ _ Htag Htruthy) in Hbuilt |- *.
    destruct (String.eqb_spec tag "product") as [Eproduct|Eproduct];
      destruct (String.eqb_spec tag "product_list") as [Elist|Elist];
      destruct (String.eqb_spec tag "button") as [Ebutton|Ebutton];
      destruct (header_type_is_not_text header) eqn:Etext;
      try apply header_type_is_not_text_false in Etext;
      destruct body as [b|], header as [h|]; simpl in Hbuilt;
      try discriminate Hbuilt;
      injection Hbuilt as <-; simpl;
      (split; [exact Htag|]);
      (split; [apply truthy_nonempty, Htruthy|]);
      repeat split; intros; try congruence; eauto.
Qed.

Lemma X5_Interactive_built_shape_witness :
  Action_tag buttons_action = Some "button" /\
  snd (new_Interactive (Some pick_one) (Some image_header) None
         (Some buttons_action))
    = Some (Action_delete_tag buttons_action).
Proof.
  destruct (X5_Interactive_built_shape (Some pick_one) (Some image_header) None
              buttons_action
              {| Interactive_action := Action_delete_tag buttons_action;
                 Interactive_type := "button";
                 Interactive_body := Some pick_one;
                 Interactive_header := Some image_header;
                 Interactive_footer := None;
                 Interactive_tag := Some "interactive" |} eq_refl)
    as (Htype & _ & _ & _ & Hafter & _).
  split; [exact Htype|exact Hafter].
Defined.

(** X6.  The footer is never looked at: two constructions that differ in the
    footer only throw the same error or both succeed, leave the action in the
    same state, and build instances that differ in the footer only. *)
Theorem X6_footer_is_not_checked (body : option Body) (header : option Header)
    (footer footer' : option Footer) (action : option Action) :
  snd (new_Interactive body header footer action)
    = snd (new_Interactive body header footer' action) /\
  match fst (new_Interactive body header footer action),
        fst (new_Interactive body header footer' action) with
  | Ok i, Ok i' =>
      Interactive_footer i = footer /\ Interactive_footer i' = footer' /\
      Interactive_type i' = Interactive_type i /\
      Interactive_action i' = Interactive_action i /\
      Interactive_body i' = Interactive_body i /\
      Interactive_header i' = Interactive_header i /\
      Interactive_tag i' = Interactive_tag i
  | Throw msg, Throw msg' => msg' = msg
  | _, _ => False
  end.
Proof.
  destruct action as [action|]; [|split; reflexivity].
  destruct (Action_tag_cases action) as [Htag|[Htag|(tag & Htag & Htruthy)]].
  - rewrite !new_Interactive_no_tag by (left; exact Htag). split; reflexivity.
  - rewrite !new_Interactive_no_tag by (right; exact Htag). split; reflexivity.
  - rewrite !(new_Interactive_cases _ _ _ _ _ Htag Htruthy).
    case_checks ltac:(simpl); repeat split; reflexivity.
Qed.

(** X7.  Which error Interactive reports, the first check that fails being the
    only one reported.  Without a body, every discriminant but "product" gets
    the body error, whatever the header.  With a body: "product" with a header
    gets the single product error; "product_list" without a text header gets
    the product list error; "list" with a header that is not a text one gets
    the header type error.  The action is left as it was in every case. *)
Theorem X7_Interactive_errors (action : Action) (tag : string)
    (body : option Body) (header : option Header) (footer : option Footer) :
  Action_tag action = Some tag -> tag <> "" ->
  let outcome := new_Interactive body header footer (Some action) in
  (tag <> "product" -> body = None ->
     outcome = (Throw "Interactive must have a body component", Some action)) /\
  (tag = "product" -> is_Some header ->
     outcome =
       (Throw "Interactive must not have a header component if action is a single product",
        Some action)) /\
  (tag = "product_list" -> is_Some body -> ~ header_is_text header ->
     outcome =
       (Throw "Interactive must have a Text header component if action is a product list",
        Some action)) /\
  (tag = "list" -> is_Some body -> is_Some header ->
   ~ header_is_text header ->
     outcome = (Throw "Interactive header must be of type Text", Some action)).
Proof.
  intros Htag Hne. apply truthy_nonempty in Hne. cbv zeta.
  rewrite (new_Interactive_cases _ _ _ _ _ Htag Hne).
  assert (Hnot : ~ header_is_text header ->
                 header_type_is_not_text header = true).
  { intros Hn. destruct (header_type_is_not_text header) eqn:E; [reflexivity|].
    apply header_type_is_not_text_false in E. contradiction. }
  split; [|split; [|split]].
  - intros Hp ->. apply String.eqb_neq in Hp. rewrite Hp. reflexivity.
  - intros -> [h ->]. simpl. reflexivity.
  - intros -> [b ->] Hn. rewrite (Hnot Hn). reflexivity.
  - intros -> [b ->] Hh Hn. rewrite (Hnot Hn). destruct Hh as [h ->].
    reflexivity.
Qed.

Lemma X7_Interactive_errors_witness :
  new_Interactive None (Some image_header) None (Some list_action)
    = (Throw "Interactive must have a body component", Some list_action) /\
  new_Interactive (Some pick_one) (Some image_header) None (Some list_action)
    = (Throw "Interactive header must be of type Text", Some list_action).
Proof.
  assert (Hne : "list" <> "") by discriminate.
  assert (Himage : ~ header_is_text (Some image_header)).
  { intros (h & E & Htype). injection E as <-. vm_compute in Htype.
    discriminate Htype. }
  split.
  - destruct (X7_Interactive_errors list_action "list" None
                (Some image_header) None eq_refl Hne) as (NoBody & _).
    apply NoBody; [discriminate|reflexivity].
  - destruct (X7_Interactive_errors list_action "list" (Some pick_one)
                (Some image_header) None eq_refl Hne) as (_ & _ & _ & NotText).
    apply NotText; [reflexivity|eexists; reflexivity|eexists; reflexivity|].
    exact Himage.
Defined.

(** ** Row, the sections and ActionList *)

Lemma keep_truthy_Some (o : option string) (s : string) :
  keep_truthy o = Some s <-> o = Some s /\ s <> "".
Proof.
  destruct o as [[|c t]|]; simpl; split; try discriminate.
  - intros [[= <-] Hne]. contradiction.
  - intros [= <-]. split; [reflexivity|discriminate].
  - intros [[= <-] _]. reflexivity.
  - intros [E _]. discriminate E.
Qed.

Lemma keep_truthy_is_Some (o : option string) :
  is_Some (keep_truthy o) <-> given o.
Proof.
  unfold given. split.
  - intros [s Hs]. exists s. apply keep_truthy_Some, Hs.
  - intros (s & Hs). exists s. apply keep_truthy_Some, Hs.
Qed.

Lemma keep_truthy_None (o : option string) :
  keep_truthy o = None <-> o = None \/ o = Some "".
Proof.
  destruct o as [[|c t]|]; simpl; split; auto; try discriminate.
  intros [E|E]; discriminate E.
Qed.

Lemma longer_than_opt_false (o : option string) (n : nat) :
  longer_than_opt o n = false <-> at_most n o.
Proof.
  unfold at_most. destruct o as [s|]; simpl.
  - rewrite andb_false_iff, longer_than_false. split.
    + intros [Hempty|Hlen] s' [= <-]; [|exact Hlen].
      destruct s; [simpl; lia|discriminate Hempty].
    + intros Hlen. right. apply Hlen. reflexivity.
  - split; [intros _ s E; discriminate E|reflexivity].
Qed.

Lemma new_ListSection_cases (title : option string) (rows : list Row) :
  new_ListSection title rows =
    if longer_than_opt title 24
    then Throw "Section title must be 24 characters or less"
    else if Nat.eqb (length rows) 0 || Nat.ltb 10 (length rows)
    then Throw "Section must have between 1 and 10 rows"
    else Ok {| ListSection_rows := rows;
               ListSection_title := keep_truthy title |}.
Proof.
  unfold new_ListSection, throw_if, rbind.
  case_checks ltac:(try reflexivity).
Qed.

Lemma new_ProductSection_cases (title : option string)
    (products : list Product) :
  new_ProductSection title products =
    if longer_than_opt title 24
    then Throw "Section title must be 24 characters or less"
    else if Nat.eqb (length products) 0 || Nat.ltb 30 (length products)
    then Throw "Section must have between 1 and 30 products"
    else Ok {| ProductSection_title := keep_truthy title;
               ProductSection_product_items := products |}.
Proof.
  unfold new_ProductSection, throw_if, rbind.
  case_checks ltac:(try reflexivity).
Qed.

Lemma has_own_title_true (fields : ClassFields) (title : option string) :
  has_own_title fields title = true <-> own_title fields title.
Proof.
  destruct fields; simpl; [tauto|]. apply bool_decide_eq_true.
Qed.

Lemma forallb_titled (fields : ClassFields) (sections : list ListSection) :
  forallb (fun obj => has_own_title fields (ListSection_title obj)) sections
    = true
  <-> Forall (fun s => own_title fields (ListSection_title s)) sections.
Proof.
  rewrite forallb_forall, Forall_forall. split; intros H s Hs.
  - apply list_elem_of_In in Hs. apply H in Hs.
    apply has_own_title_true in Hs. exact Hs.
  - apply has_own_title_true. apply H, list_elem_of_In, Hs.
Qed.

Lemma new_ActionList_cases (fields : ClassFields) (button : string)
    (sections : list ListSection) :
  new_ActionList fields button sections =
    if negb (truthy button) then Throw "Action must have a button content"
    else if longer_than button 20
    then Throw "Button content must be 20 characters or less"
    else if Nat.eqb (length sections) 0 || Nat.ltb 10 (length sections)
    then Throw "Action must have between 1 and 10 sections"
    else if Nat.ltb 1 (length sections)
            && negb (forallb (fun obj => has_own_title fields
                                           (ListSection_title obj)) sections)
    then Throw "All sections must have a title if more than 1 section is provided"
    else Ok {| ActionList_button := button; ActionList_sections := sections;
               ActionList_tag := Some "list" |}.
Proof.
  unfold new_ActionList, throw_if, rbind.
  case_checks ltac:(try reflexivity).
Qed.

(** A sequence of checks succeeds exactly when none of its tests fires. *)
Lemma is_ok_check {A} (c : bool) (msg : string) (k : result A) :
  is_ok (if c then Throw msg else k) = true <-> c = false /\ is_ok k = true.
Proof. destruct c; simpl; intuition congruence. Qed.

Lemma Ok_check {A} (c : bool) (msg : string) (k : result A) (a : A) :
  (if c then Throw msg else k) = Ok a -> k = Ok a.
Proof. destruct c; [discriminate|trivial]. Qed.

Lemma truthy_length_iff (s : string) :
  truthy s = true <-> 1 <= String.length s.
Proof. destruct s; simpl; split; (discriminate || lia || reflexivity). Qed.

(** X8.  Row is built exactly when the id has 1 to 200 characters, the title
    1 to 24 and the description, if given, at most 72; the id may start or end
    with a space, unlike the id of a Button.  The Row holds the id and the
    title as given, and the description unless it is absent or empty. *)
Theorem X8_Row_accepts (id title : string) (description : option string) :
  (is_ok (new_Row id title description) = true <->
     1 <= String.length id <= 200 /\ 1 <= String.length title <= 24 /\
     at_most 72 description) /\
  (forall r, new_Row id title description = Ok r ->
     Row_id r = id /\ Row_title r = title /\
     (Row_description r = None <->
      description = None \/ description = Some "") /\
     (forall d, Row_description r = Some d <->
      description = Some d /\ d <> "")).
Proof.
  rewrite new_Row_cases. split.
  - rewrite !is_ok_check, !negb_false_iff, !truthy_length_iff,
      !longer_than_false, longer_than_opt_false. simpl. intuition.
  - intros r Hr. do 5 apply Ok_check in Hr. injection Hr as <-. simpl.
    split; [reflexivity|]. split; [reflexivity|].
    split; [apply keep_truthy_None|]. intros d. apply keep_truthy_Some.
Qed.

Lemma X8_Row_accepts_witness :
  is_ok (new_Row " r1 " "First" (Some "")) = true /\
  new_Row " r1 " "First" (Some "") =
    Ok {| Row_id := " r1 "; Row_title := "First"; Row_description := None |}.
Proof.
  destruct (X8_Row_accepts " r1 " "First" (Some "")) as [Accepts Built].
  split.
  - apply Accepts. simpl. split; [lia|]. split; [lia|].
    intros s [= <-]. simpl. lia.
  - destruct (new_Row " r1 " "First" (Some "")) as [r|msg] eqn:E.
    + destruct (Built r eq_refl) as (Hid & Htitle & Hnone & _).
      destruct r as [rid rtitle rdescription]. simpl in *.
      rewrite Hid, Htitle, (proj2 Hnone (or_intror eq_refl)). reflexivity.
    + discriminate E.
Defined.

(** X9.  ListSection is built exactly when the title, if given, has at most
    24 characters and there are 1 to 10 rows; ProductSection, when the title
    has at most 24 characters and there are 1 to 30 products.  Either keeps its
    children in the order given, and has a title exactly when a non-empty one
    was given: an empty title is dropped like an absent one. *)
Theorem X9_sections_accept (title : option string) :
  (forall rows,
     (is_ok (new_ListSection title rows) = true <->
        at_most 24 title /\ 1 <= length rows <= 10) /\
     (forall s, new_ListSection title rows = Ok s ->
        ListSection_rows s = rows /\
        ListSection_title s = keep_truthy title /\
        (is_Some (ListSection_title s) <-> given title))) /\
  (forall products,
     (is_ok (new_ProductSection title products) = true <->
        at_most 24 title /\ 1 <= length products <= 30) /\
     (forall s, new_ProductSection title products = Ok s ->
        ProductSection_product_items s = products /\
        ProductSection_title s = keep_truthy title /\
        (is_Some (ProductSection_title s) <-> given title))).
Proof.
  split.
  - intros rows. rewrite new_ListSection_cases. split.
    + rewrite !is_ok_check, longer_than_opt_false, count_check_false. simpl.
      intuition.
    + intros s Hs. do 2 apply Ok_check in Hs. injection Hs as <-. simpl.
      split; [reflexivity|]. split; [reflexivity|]. apply keep_truthy_is_Some.
  - intros products. rewrite new_ProductSection_cases. split.
    + rewrite !is_ok_check, longer_than_opt_false, count_check_false. simpl.
      intuition.
    + intros s Hs. do 2 apply Ok_check in Hs. injection Hs as <-. simpl.
      split; [reflexivity|]. split; [reflexivity|]. apply keep_truthy_is_Some.
Qed.

Lemma X9_sections_accept_witness :
  new_ListSection (Some "") [first_row] =
    Ok {| ListSection_rows := [first_row]; ListSection_title := None |}.
Proof.
  destruct (X9_sections_accept (Some "")) as [OnRows _].
  destruct (OnRows [first_row]) as [_ Built].
  destruct (new_ListSection (Some "") [first_row]) as [s|msg] eqn:E.
  - destruct (Built s eq_refl) as (Hrows & Htitle & _).
    destruct s as [rows title]. simpl in *. rewrite Hrows, Htitle.
    reflexivity.
  - discriminate E.
Defined.

(** X10.  ActionList is built exactly when the button text has 1 to 20
    characters, there are 1 to 10 sections and, unless there is one section
    only, every section has the own property [title].  Where a declared field
    is on the instance only once assigned, that is: every section has a
    title.  Where declared fields are defined on every instance, it holds of
    every section, and sections without a title are taken.  The ActionList
    keeps the sections in the order given and carries the discriminant
    "list". *)
Theorem X10_ActionList_accepts (fields : ClassFields) (button : string)
    (sections : list ListSection) :
  (is_ok (new_ActionList fields button sections) = true <->
     1 <= String.length button <= 20 /\ 1 <= length sections <= 10 /\
     (length sections = 1 \/
      match fields with
      | DefinedFields => True
      | AssignedFields =>
          Forall (fun s => is_Some (ListSection_title s)) sections
      end)) /\
  (forall a, new_ActionList fields button sections = Ok a ->
     ActionList_button a = button /\ ActionList_sections a = sections /\
     ActionList_tag a = Some "list").
Proof.
  rewrite new_ActionList_cases. split.
  - rewrite !is_ok_check, !negb_false_iff, truthy_length_iff,
      longer_than_false, count_check_false, andb_false_iff, negb_false_iff,
      Nat.ltb_ge, forallb_titled.
    destruct fields; simpl.
    + assert (Hall : Forall (fun _ : ListSection => True) sections)
        by (apply Forall_forall; trivial).
      intuition lia.
    + intuition lia.
  - intros a Ha. do 4 apply Ok_check in Ha. injection Ha as <-.
    repeat split; reflexivity.
Qed.

Lemma X10_ActionList_accepts_witness :
  is_ok (new_ActionList DefinedFields "Menu"
           [{| ListSection_rows := [first_row]; ListSection_title := None |};
            {| ListSection_rows := [first_row];
               ListSection_title := Some "More" |}]) = true /\
  is_ok (new_ActionList AssignedFields "Menu"
           [{| ListSection_rows := [first_row]; ListSection_title := None |};
            {| ListSection_rows := [first_row];
               ListSection_title := Some "More" |}]) = false.
Proof.
  split.
  - apply (X10_ActionList_accepts DefinedFields "Menu"). simpl.
    split; [lia|]. split; [lia|]. right. exact I.
  - destruct (X10_ActionList_accepts AssignedFields "Menu"
                [{| ListSection_rows := [first_row];
                    ListSection_title := None |};
                 {| ListSection_rows := [first_row];
                    ListSection_title := Some "More" |}]) as [Accepts _].
    destruct (is_ok _); [|reflexivity].
    destruct (proj1 Accepts eq_refl) as (_ & _ & [Hone|Hall]);
      [discriminate Hone|].
    apply Forall_cons in Hall. destruct Hall as [[t Ht] _]. discriminate Ht.
Defined.

(** ** Building an ActionList from sections built by ListSection *)

Lemma new_ActionList_accepts (fields : ClassFields) (button : string)
    (sections : list ListSection) :
  is_ok (new_ActionList fields button sections) = true <->
  1 <= String.length button <= 20 /\ 1 <= length sections <= 10 /\
  (length sections = 1 \/
   Forall (fun s => own_title fields (ListSection_title s)) sections).
Proof.
  rewrite new_ActionList_cases.
  rewrite !is_ok_check, !negb_false_iff, truthy_length_iff,
    longer_than_false, count_check_false, andb_false_iff, negb_false_iff,
    Nat.ltb_ge, forallb_titled. simpl. intuition lia.
Qed.

Lemma new_ListSection_title (title : option string) (rows : list Row)
    (s : ListSection) :
  new_ListSection title rows = Ok s ->
  (is_Some (ListSection_title s) <-> given title).
Proof.
  rewrite new_ListSection_cases. intros Hs. do 2 apply Ok_check in Hs.
  injection Hs as <-. simpl. apply keep_truthy_is_Some.
Qed.

(** X11.  Sections built by ListSection go together in an ActionList exactly
    when there are 1 to 10 of them and the test for the own property [title]
    passes.  Where a declared field is on the instance only once assigned,
    that is: unless there is only one section, each was given a non-empty
    title, a section built with an empty title counting as untitled.  Where
    declared fields are defined on every instance, sections built without a
    title go together as well. *)
Theorem X11_ActionList_of_built_sections (fields : ClassFields)
    (button : string) (args : list (option string * list Row))
    (sections : list ListSection) :
  Forall2 (fun arg s => new_ListSection (fst arg) (snd arg) = Ok s)
    args sections ->
  1 <= String.length button <= 20 ->
  (is_ok (new_ActionList fields button sections) = true <->
   1 <= length args <= 10 /\
   (length args = 1 \/
    match fields with
    | DefinedFields => True
    | AssignedFields => Forall (fun arg => given (fst arg)) args
    end)).
Proof.
  intros Hbuilt Hbutton.
  rewrite new_ActionList_accepts, <- (Forall2_length _ _ _ Hbuilt).
  destruct fields; simpl.
  - assert (Hall : Forall (fun _ : ListSection => True) sections)
      by (apply Forall_forall; trivial).
    intuition.
  - assert (Htitles : Forall (fun s => is_Some (ListSection_title s)) sections
                      <-> Forall (fun arg => given (fst arg)) args).
    { induction Hbuilt as [|arg s args sections Hs _ IH].
      - split; constructor.
      - rewrite !Forall_cons, IH, (new_ListSection_title _ _ _ Hs).
        reflexivity. }
    rewrite Htitles. intuition.
Qed.

Lemma X11_ActionList_of_built_sections_witness :
  is_ok (new_ActionList DefinedFields "Menu"
           [{| ListSection_rows := [first_row]; ListSection_title := None |};
            {| ListSection_rows := [first_row];
               ListSection_title := Some "More" |}]) = true /\
  is_ok (new_ActionList AssignedFields "Menu"
           [{| ListSection_rows := [first_row]; ListSection_title := None |};
            {| ListSection_rows := [first_row];
               ListSection_title := Some "More" |}]) = false.
Proof.
  assert (Hbuilt :
            Forall2 (fun arg s => new_ListSection (fst arg) (snd arg) = Ok s)
              [(Some "", [first_row]); (Some "More", [first_row])]
              [{| ListSection_rows := [first_row]; ListSection_title := None |};
               {| ListSection_rows := [first_row];
                  ListSection_title := Some "More" |}])
    by (repeat constructor).
  assert (Hmenu : 1 <= String.length "Menu" <= 20) by (simpl; lia).
  split.
  - apply (X11_ActionList_of_built_sections DefinedFields "Menu" _ _
             Hbuilt Hmenu).
    split; [simpl; lia|]. right. exact I.
  - destruct (X11_ActionList_of_built_sections AssignedFields "Menu" _ _
                Hbuilt Hmenu) as [Honly _].
    destruct (is_ok _); [|reflexivity].
    destruct (Honly eq_refl) as [_ [Hone|Hall]]; [discriminate Hone|].
    apply Forall_cons in Hall. destruct Hall as [(s & [= <-] & Hne) _].
    contradiction.
Defined.

(** ** ActionCatalog: every case *)

Lemma each_is_titled_section_Ok (fields : ClassFields)
    (products : list CatalogItem) :
  each_is_titled_section fields products = Ok tt <->
  Forall (passing_section fields) products.
Proof.
  induction products as [|x products IH]; simpl.
  - split; [constructor|reflexivity].
  - rewrite Forall_cons, <- IH. unfold passing_section.
    destruct x as [p|s].
    + split; [discriminate|]. intros [(s & E & _) _]. discriminate E.
    + pose proof (has_own_title_true fields (ProductSection_title s)) as Hown.
      destruct (has_own_title fields (ProductSection_title s)); simpl.
      * split; [intros H; split; [exists s; split; [reflexivity|]|exact H]|].
        -- apply Hown. reflexivity.
        -- intros [_ H]. exact H.
      * split; [discriminate|]. intros [(s' & [= <-] & Hs) _].
        apply Hown in Hs. discriminate Hs.
Qed.

Lemma new_ActionCatalog_accepts (fields : ClassFields) (catalog_id : string)
    (products : list CatalogItem) :
  is_ok (new_ActionCatalog fields catalog_id products) = true <->
  catalog_id <> "" /\
  ((exists p, products = [AProduct p]) \/
   (exists s, products = [ASection s]) \/
   (2 <= length products <= 10 /\ Forall (passing_section fields) products)).
Proof.
  unfold new_ActionCatalog. rewrite <- truthy_nonempty.
  destruct (truthy catalog_id); simpl; [|intuition congruence].
  destruct products as [|x [|y rest]].
  - simpl. split; [discriminate|].
    intros [_ [(p & E)|[(s & E)|[Hlen _]]]];
      [discriminate E|discriminate E|simpl in Hlen; lia].
  - destruct x as [p|s]; simpl; split; eauto.
  - destruct x as [p|s].
    + simpl. split; [discriminate|].
      intros [_ [(p' & E)|[(s & E)|[_ Hall]]]];
        [discriminate E|discriminate E|].
      apply Forall_cons in Hall. destruct Hall as [(s & E & _) _].
      discriminate E.
    + change (first_is_Product (ASection s :: y :: rest)) with (@None Product).
      rewrite bool_decide_eq_false_2 by (apply is_Some_None).
      cbn [andb fmap option_fmap option_map].
      remember (ASection s :: y :: rest) as products eqn:Eproducts.
      assert (Htwo : 2 <= length products) by (subst products; simpl; lia).
      assert (Hlen : Nat.ltb 1 (length products) = true)
        by (apply Nat.ltb_lt; lia).
      assert (Hzero : Nat.eqb (length products) 0 = false)
        by (apply Nat.eqb_neq; lia).
      rewrite Hlen, Hzero.
      assert (Hmany : forall P : Prop,
                (exists p, products = [AProduct p]) \/
                (exists s', products = [ASection s']) \/ P -> P).
      { intros P [(p & E)|[(s' & E)|HP]]; [| |exact HP];
          rewrite E in Htwo; simpl in Htwo; lia. }
      destruct (Nat.ltb 10 (length products)) eqn:Hten; simpl.
      * apply Nat.ltb_lt in Hten. split; [discriminate|].
        intros [_ Hshape]. apply Hmany in Hshape. lia.
      * apply Nat.ltb_ge in Hten.
        pose proof (each_is_titled_section_Ok fields products) as Hall.
        destruct (each_is_titled_section fields products) as [[]|msg]; simpl.
        -- split; [|reflexivity]. intros _. split; [reflexivity|].
           right. right. split; [lia|]. apply Hall. reflexivity.
        -- split; [discriminate|].
           intros [_ Hshape]. apply Hmany in Hshape.
           destruct Hshape as [_ Hf]. apply Hall in Hf. discriminate Hf.
Qed.

(** X12.  ActionCatalog is built exactly when the catalog id is not empty and
    the arguments are one Product, or one ProductSection, titled or not, or 2
    to 10 ProductSections that each have the own property [title]: each a
    title, where a declared field is on the instance only once assigned; any
    sections, where declared fields are defined on every instance.  Built from
    one Product it carries the discriminant "product" and the retailer id of
    the product, and no sections; built otherwise, the discriminant
    "product_list" and the sections in the order given, and no retailer id. *)
Theorem X12_ActionCatalog_accepts (fields : ClassFields) (catalog_id : string)
    (products : list CatalogItem) :
  (is_ok (new_ActionCatalog fields catalog_id products) = true <->
     catalog_id <> "" /\
     ((exists p, products = [AProduct p]) \/
      (exists s, products = [ASection s]) \/
      (2 <= length products <= 10 /\
       Forall (fun x =>
                 exists s, x = ASection s /\
                   match fields with
                   | DefinedFields => True
                   | AssignedFields => is_Some (ProductSection_title s)
                   end) products))) /\
  (forall a, new_ActionCatalog fields catalog_id products = Ok a ->
     ActionCatalog_catalog_id a = catalog_id /\
     ((exists p, products = [AProduct p] /\
         ActionCatalog_tag a = Some "product" /\
         ActionCatalog_product_retailer_id a
           = Some (Product_product_retailer_id p) /\
         ActionCatalog_sections a = None) \/
      ((forall p, products <> [AProduct p]) /\
         ActionCatalog_tag a = Some "product_list" /\
         ActionCatalog_product_retailer_id a = None /\
         ActionCatalog_sections a = Some products))).
Proof.
  split; [apply new_ActionCatalog_accepts|].
  intros a Ha.
  assert (Hok : is_ok (new_ActionCatalog fields catalog_id products) = true)
    by (rewrite Ha; reflexivity).
  apply new_ActionCatalog_accepts in Hok. destruct Hok as [Hid Hshape].
  revert Ha. unfold new_ActionCatalog, rbind.
  repeat match goal with
         | |- context [match ?c with Ok _ => _ | Throw _ => _ end] =>
             destruct c; [|discriminate]
         end.
  intros [= <-]. simpl. split; [reflexivity|].
  destruct Hshape as [(p & ->)|[(s & ->)|[Hlen Hall]]].
  - left. exists p. repeat split; reflexivity.
  - right. split; [discriminate|]. repeat split; reflexivity.
  - right. destruct products as [|x products]; [simpl in Hlen; lia|].
    apply Forall_cons in Hall. destruct Hall as [(s & -> & _) _].
    split; [discriminate|]. repeat split; reflexivity.
Qed.

Lemma X12_ActionCatalog_accepts_witness :
  is_ok (new_ActionCatalog AssignedFields "cat1" [ASection untitled]) = true /\
  is_ok (new_ActionCatalog DefinedFields "cat1"
           [ASection shoes; ASection untitled]) = true /\
  is_ok (new_ActionCatalog DefinedFields "cat1"
           [ASection shoes; AProduct sku1]) = false.
Proof.
  destruct (X12_ActionCatalog_accepts AssignedFields "cat1" [ASection untitled])
    as [Alone _].
  destruct (X12_ActionCatalog_accepts DefinedFields "cat1"
              [ASection shoes; ASection untitled]) as [Untitled _].
  destruct (X12_ActionCatalog_accepts DefinedFields "cat1"
              [ASection shoes; AProduct sku1]) as [Mixed _].
  split; [|split].
  - apply Alone. split; [discriminate|]. right. left. eexists. reflexivity.
  - apply Untitled. split; [discriminate|]. right. right.
    split; [simpl; lia|].
    repeat constructor; eexists; (split; [reflexivity|exact I]).
  - destruct (is_ok (new_ActionCatalog DefinedFields "cat1"
                       [ASection shoes; AProduct sku1])); [|reflexivity].
    destruct (proj1 Mixed eq_refl) as [_ [(p & E)|[(s & E)|[_ Hall]]]];
      [discriminate E|discriminate E|].
    apply Forall_cons in Hall. destruct Hall as [_ Hall].
    apply Forall_cons in Hall. destruct Hall as [(s & E & _) _].
    discriminate E.
Defined.

(** The loop over the arguments stops at the first one that does not pass. *)
Lemma each_is_titled_section_app (fields : ClassFields)
    (pre : list CatalogItem) (x : CatalogItem) (post : list CatalogItem) :
  Forall (passing_section fields) pre ->
  each_is_titled_section fields (pre ++ x :: post) =
    each_is_titled_section fields (x :: post).
Proof.
  induction 1 as [|y pre (s & -> & Hown) _ IH]; [reflexivity|].
  simpl. apply has_own_title_true in Hown. rewrite Hown. simpl. exact IH.
Qed.

(** With declared fields defined on every instance, the loop throws for a
    Product only. *)
Lemma each_is_titled_section_defined (products : list CatalogItem) :
  each_is_titled_section DefinedFields products
    <> Throw "All sections must have a title if more than 1 section is provided".
Proof.
  induction products as [|[p|s] products IH]; simpl;
    [discriminate|discriminate|exact IH].
Qed.

(** X13.  Which error ActionCatalog reports, for a catalog id that is not
    empty.  No argument: a product or section is asked for.  A Product
    followed by anything, however many: only one Product is allowed.  A
    ProductSection first and more than 10 arguments: the count error.
    Otherwise, with 2 to 10 arguments, the first argument that does not pass
    decides.  A Product gets the "only ProductSection" error.  A section
    without title gets the title error where a declared field is on the
    instance only once assigned; where declared fields are defined on every
    instance, every section passes, and the title error is never reported. *)
Theorem X13_ActionCatalog_errors (fields : ClassFields) (catalog_id : string) :
  catalog_id <> "" ->
  new_ActionCatalog fields catalog_id []
    = Throw "Catalog must have at least one product or product section" /\
  (forall p x rest,
     new_ActionCatalog fields catalog_id (AProduct p :: x :: rest)
       = Throw "Catalog must have only 1 product, use a ProductSection instead") /\
  (forall s rest, 10 <= length rest ->
     new_ActionCatalog fields catalog_id (ASection s :: rest)
       = Throw "Catalog must have between 1 and 10 product sections") /\
  (forall s pre p post,
     length (ASection s :: pre ++ AProduct p :: post) <= 10 ->
     Forall (passing_section fields) (ASection s :: pre) ->
     new_ActionCatalog fields catalog_id
       (ASection s :: pre ++ AProduct p :: post)
       = Throw "Catalog must have only ProductSection objects") /\
  (fields = AssignedFields ->
   forall pre s post,
     2 <= length (pre ++ ASection s :: post) <= 10 ->
     Forall (passing_section fields) pre -> ProductSection_title s = None ->
     new_ActionCatalog fields catalog_id (pre ++ ASection s :: post)
       = Throw "All sections must have a title if more than 1 section is provided") /\
  (fields = DefinedFields ->
   forall products,
     new_ActionCatalog fields catalog_id products
       <> Throw "All sections must have a title if more than 1 section is provided").
Proof.
  intros Hid. apply truthy_nonempty in Hid.
  split; [|split; [|split; [|split; [|split]]]].
  - unfold new_ActionCatalog. rewrite Hid. reflexivity.
  - intros p x rest. unfold new_ActionCatalog. rewrite Hid. reflexivity.
  - intros s rest Hlen. unfold new_ActionCatalog. rewrite Hid. simpl.
    assert (Hten : Nat.ltb 10 (S (length rest)) = true)
      by (apply Nat.ltb_lt; lia).
    rewrite Hten. reflexivity.
  - intros s pre p post Hlen Hall.
    unfold new_ActionCatalog. rewrite Hid.
    remember (ASection s :: pre ++ AProduct p :: post)%list as products.
    assert (Hfirst : first_is_Product products = None)
      by (subst products; reflexivity).
    assert (Htwo : 2 <= length products).
    { subst products. simpl. rewrite length_app. simpl. lia. }
    assert (Hzero : Nat.eqb (length products) 0 = false)
      by (apply Nat.eqb_neq; lia).
    assert (Hone : Nat.ltb 1 (length products) = true)
      by (apply Nat.ltb_lt; lia).
    assert (Hten : Nat.ltb 10 (length products) = false)
      by (apply Nat.ltb_ge; lia).
    rewrite Hfirst, Hzero, Hone, Hten. simpl.
    subst products.
    change (ASection s :: pre ++ AProduct p :: post)
      with ((ASection s :: pre) ++ AProduct p :: post)%list.
    rewrite (each_is_titled_section_app fields (ASection s :: pre)
               (AProduct p) post) by exact Hall.
    reflexivity.
  - intros -> pre s post Hlen Hall Htitle.
    unfold new_ActionCatalog. rewrite Hid.
    remember (pre ++ ASection s :: post)%list as products.
    assert (Hfirst : first_is_Product products = None).
    { subst products. destruct Hall as [|x pre (s' & -> & _) _]; reflexivity. }
    assert (Hzero : Nat.eqb (length products) 0 = false)
      by (apply Nat.eqb_neq; lia).
    assert (Hone : Nat.ltb 1 (length products) = true)
      by (apply Nat.ltb_lt; lia).
    assert (Hten : Nat.ltb 10 (length products) = false)
      by (apply Nat.ltb_ge; lia).
    rewrite Hfirst, Hzero, Hone, Hten. simpl.
    subst products.
    rewrite (each_is_titled_section_app AssignedFields pre (ASection s) post)
      by exact Hall.
    simpl. rewrite Htitle. reflexivity.
  - intros -> products. unfold new_ActionCatalog, throw_if, rbind.
    rewrite Hid. simpl.
    pose proof (each_is_titled_section_defined products) as Hloop.
    repeat match goal with
           | |- context [if ?c then _ else _] => destruct c; simpl
           end; try discriminate.
    all: destruct (each_is_titled_section DefinedFields products) as [[]|msg];
      [discriminate|congruence].
Qed.

Lemma X13_ActionCatalog_errors_witness :
  new_ActionCatalog DefinedFields "cat1"
    [ASection shoes; ASection untitled; AProduct sku1]
    = Throw "Catalog must have only ProductSection objects" /\
  new_ActionCatalog AssignedFields "cat1"
    [ASection shoes; ASection untitled; AProduct sku1]
    = Throw "All sections must have a title if more than 1 section is provided" /\
  new_ActionCatalog AssignedFields "cat1"
    (AProduct sku1 :: repeat (ASection shoes) 10)
    = Throw "Catalog must have only 1 product, use a ProductSection instead".
Proof.
  assert (Hcat : "cat1" <> "") by discriminate.
  destruct (X13_ActionCatalog_errors DefinedFields "cat1" Hcat)
    as (_ & _ & _ & NotSection & _).
  destruct (X13_ActionCatalog_errors AssignedFields "cat1" Hcat)
    as (_ & Product & _ & _ & Untitled & _).
  split; [|split].
  - apply (NotSection shoes [ASection untitled] sku1 []).
    + simpl. lia.
    + repeat constructor; eexists; (split; [reflexivity|exact I]).
  - apply (Untitled eq_refl [ASection shoes] untitled [AProduct sku1]).
    + simpl. lia.
    + repeat constructor. exists shoes.
      split; [reflexivity|eexists; reflexivity].
    + reflexivity.
  - apply Product.
Defined.

(** ** Building an ActionCatalog from sections built by ProductSection *)

Lemma new_ProductSection_title (title : option string)
    (products : list Product) (s : ProductSection) :
  new_ProductSection title products = Ok s ->
  (is_Some (ProductSection_title s) <-> given title).
Proof.
  rewrite new_ProductSection_cases. intros Hs. do 2 apply Ok_check in Hs.
  injection Hs as <-. simpl. apply keep_truthy_is_Some.
Qed.

(** X14.  Sections built by ProductSection go together in an ActionCatalog
    exactly when there are 1 to 10 of them and the test for the own property
    [title] passes.  Where a declared field is on the instance only once
    assigned, that is: unless there is only one section, each was given a
    non-empty title.  Where declared fields are defined on every instance,
    sections built without a title go together as well. *)
Theorem X14_ActionCatalog_of_built_sections (fields : ClassFields)
    (catalog_id : string) (args : list (option string * list Product))
    (sections : list ProductSection) :
  Forall2 (fun arg s => new_ProductSection (fst arg) (snd arg) = Ok s)
    args sections ->
  catalog_id <> "" ->
  (is_ok (new_ActionCatalog fields catalog_id (map ASection sections)) = true
   <->
   1 <= length args <= 10 /\
   (length args = 1 \/
    match fields with
    | DefinedFields => True
    | AssignedFields => Forall (fun arg => given (fst arg)) args
    end)).
Proof.
  intros Hbuilt Hid.
  rewrite new_ActionCatalog_accepts, length_map,
    <- (Forall2_length _ _ _ Hbuilt).
  assert (Htitles : Forall (passing_section fields) (map ASection sections)
                    <-> match fields with
                        | DefinedFields => True
                        | AssignedFields =>
                            Forall (fun arg => given (fst arg)) args
                        end).
  { destruct fields.
    - split; [trivial|]. intros _. apply Forall_forall. intros x Hx.
      change (map ASection sections) with (ASection <$> sections) in Hx.
      apply list_elem_of_fmap in Hx. destruct Hx as (s & -> & _).
      exists s. split; [reflexivity|exact I].
    - induction Hbuilt as [|arg s args sections Hs _ IH].
      + split; constructor.
      + simpl. rewrite !Forall_cons, IH,
          <- (new_ProductSection_title _ _ _ Hs).
        unfold passing_section. simpl. split.
        * intros [(s' & [= <-] & Ht) Hrest]. split; assumption.
        * intros [Ht Hrest].
          split; [exists s; split; [reflexivity|exact Ht]|]. exact Hrest. }
  rewrite Htitles.
  assert (Hlen : length sections = length args)
    by (symmetry; apply (Forall2_length _ _ _ Hbuilt)).
  split.
  - intros [_ [(p & E)|[(s & E)|[Hrange Hall]]]].
    + destruct sections as [|s0 sections]; discriminate E.
    + destruct sections as [|s0 [|s1 sections]]; try discriminate E.
      simpl in Hlen. split; [lia|left; lia].
    + split; [lia|right; exact Hall].
  - intros [Hrange Hall]. split; [exact Hid|].
    destruct (decide (length args = 1)) as [Hone|Hmore].
    + right. left. destruct sections as [|s0 [|s1 sections]];
        simpl in Hlen; try lia. exists s0. reflexivity.
    + right. right. split; [lia|]. destruct Hall as [Hone|Hall];
        [contradiction|exact Hall].
Qed.

Lemma X14_ActionCatalog_of_built_sections_witness :
  is_ok (new_ActionCatalog AssignedFields "cat1" (map ASection [shoes; hats]))
    = true /\
  is_ok (new_ActionCatalog DefinedFields "cat1"
           (map ASection [shoes; untitled])) = true.
Proof.
  split.
  - apply (X14_ActionCatalog_of_built_sections AssignedFields "cat1"
             [(Some "Shoes", [sku1]); (Some "Hats", [sku2])] [shoes; hats]).
    + repeat constructor.
    + discriminate.
    + split; [simpl; lia|]. right.
      repeat constructor; eexists; (split; [reflexivity|discriminate]).
  - apply (X14_ActionCatalog_of_built_sections DefinedFields "cat1"
             [(Some "Shoes", [sku1]); (None, [sku2])] [shoes; untitled]).
    + repeat constructor.
    + discriminate.
    + split; [simpl; lia|]. right. exact I.
Defined.

(** ** Building ActionButtons from Buttons built by Button *)

Lemma new_Button_Ok (id title : string) (b : Button) :
  new_Button id title = Ok b <->
  1 <= String.length id <= 256 /\ edge_space_test id = false /\
  1 <= String.length title <= 20 /\ b = Button_of id title.
Proof.
  rewrite new_Button_cases. split.
  - intros Hb.
    assert (Hok : is_ok (new_Button id title) = true)
      by (rewrite new_Button_cases, Hb; reflexivity).
    rewrite new_Button_cases in Hok.
    rewrite !is_ok_check, !negb_false_iff, !truthy_length_iff,
      !longer_than_false in Hok.
    do 5 apply Ok_check in Hb. injection Hb as <-.
    unfold Button_of. intuition.
  - intros ((Hid & Hidlen) & Hspace & (Htitle & Htitlelen) & ->).
    apply truthy_length_iff in Hid, Htitle.
    apply longer_than_false in Hidlen, Htitlelen.
    rewrite Hid, Hidlen, Hspace, Htitle, Htitlelen. reflexivity.
Qed.

Lemma built_buttons (args : list (string * string)) (buttons : list Button) :
  Forall2 (fun arg b => new_Button (fst arg) (snd arg) = Ok b) args buttons <->
  Forall (fun arg =>
            1 <= String.length (fst arg) <= 256 /\
            edge_space_test (fst arg) = false /\
            1 <= String.length (snd arg) <= 20) args /\
  buttons = map (fun arg => Button_of (fst arg) (snd arg)) args.
Proof.
  split.
  - induction 1 as [|arg b args buttons Hb _ [IHall ->]];
      [split; [constructor|reflexivity]|].
    apply new_Button_Ok in Hb. destruct Hb as (Hid & Hspace & Htitle & ->).
    split; [constructor; [tauto|exact IHall]|reflexivity].
  - intros [Hall ->]. induction Hall as [|arg args Harg _ IH]; constructor.
    + apply new_Button_Ok. tauto.
    + exact IH.
Qed.

(** X15.  Buttons built by Button go together in an ActionButtons exactly when
    there are 1 to 3 of them, no id was given twice and no title was given
    twice.  The ActionButtons then holds them in the order given, each with an
    id of 1 to 256 characters that neither starts nor ends with a space and a
    title of 1 to 20 characters, and carries the discriminant "button". *)
Theorem X15_ActionButtons_of_built_buttons (args : list (string * string))
    (buttons : list Button) :
  Forall2 (fun arg b => new_Button (fst arg) (snd arg) = Ok b) args buttons ->
  (is_ok (new_ActionButtons buttons) = true <->
     1 <= length args <= 3 /\ NoDup (map fst args) /\ NoDup (map snd args)) /\
  (forall a, new_ActionButtons buttons = Ok a ->
     ActionButtons_tag a = Some "button" /\
     ActionButtons_buttons a
       = map (fun arg => Button_of (fst arg) (snd arg)) args /\
     Forall (fun b =>
               1 <= String.length (Reply_id (Button_reply b)) <= 256 /\
               edge_space_test (Reply_id (Button_reply b)) = false /\
               1 <= String.length (Reply_title (Button_reply b)) <= 20)
       (ActionButtons_buttons a)).
Proof.
  intros Hbuilt. apply built_buttons in Hbuilt. destruct Hbuilt as [Hall ->].
  rewrite new_ActionButtons_cases.
  assert (Hids : button_ids (map (fun arg => Button_of (fst arg) (snd arg)) args)
                 = map fst args).
  { unfold button_ids. rewrite map_map. reflexivity. }
  assert (Htitles : button_titles
                      (map (fun arg => Button_of (fst arg) (snd arg)) args)
                    = map snd args).
  { unfold button_titles. rewrite map_map. reflexivity. }
  rewrite Hids, Htitles, length_map.
  split.
  - rewrite is_ok_check, count_check_false.
    destruct (bool_decide (NoDup (map fst args))) eqn:Ei;
      [apply bool_decide_eq_true_1 in Ei|apply bool_decide_eq_false_1 in Ei];
      (destruct (bool_decide (NoDup (map snd args))) eqn:Et;
       [apply bool_decide_eq_true_1 in Et|apply bool_decide_eq_false_1 in Et]);
      simpl; intuition congruence.
  - intros a Ha. apply Ok_check in Ha.
    destruct (bool_decide (NoDup (map fst args))); [|discriminate Ha].
    destruct (bool_decide (NoDup (map snd args))); [|discriminate Ha].
    injection Ha as <-. simpl.
    split; [reflexivity|]. split; [reflexivity|].
    apply Forall_map. exact Hall.
Qed.

Lemma X15_ActionButtons_of_built_buttons_witness :
  is_ok (new_ActionButtons [yes_button; no_button]) = true.
Proof.
  destruct (X15_ActionButtons_of_built_buttons
              [("yes", "Yes"); ("no", "No")] [yes_button; no_button])
    as [Accepts _].
  - repeat constructor.
  - apply Accepts. split; [simpl; lia|].
    split; apply (bool_decide_eq_true_1 _); vm_compute; reflexivity.
Defined.

(** ** From the parts to the Interactive *)

Lemma new_Product_Ok (product_retailer_id : string) :
  product_retailer_id <> "" ->
  new_Product product_retailer_id
    = Ok {| Product_product_retailer_id := product_retailer_id |}.
Proof.
  intros Hne. apply truthy_nonempty in Hne. unfold new_Product.
  rewrite Hne. reflexivity.
Qed.

(** X16.  A single product message.  From a retailer id and a catalog id that
    are not empty, Product and then ActionCatalog are built, and Interactive on
    that action is built with or without a body as long as no header is
    given: its type is "product", and its action holds the catalog id and the
    retailer id and no discriminant.  With a header it is refused. *)
Theorem X16_single_product_message (fields : ClassFields)
    (catalog_id product_retailer_id : string)
    (body : option Body) (header : option Header) (footer : option Footer) :
  catalog_id <> "" -> product_retailer_id <> "" ->
  exists p a,
    new_Product product_retailer_id = Ok p /\
    new_ActionCatalog fields catalog_id [AProduct p] = Ok a /\
    new_Interactive body None footer (Some (OfActionCatalog a)) =
      (let stored :=
         OfActionCatalog
           {| ActionCatalog_catalog_id := catalog_id;
              ActionCatalog_product_retailer_id := Some product_retailer_id;
              ActionCatalog_sections := None;
              ActionCatalog_tag := None |} in
       (Ok {| Interactive_action := stored;
              Interactive_type := "product";
              Interactive_body := body;
              Interactive_header := None;
              Interactive_footer := footer;
              Interactive_tag := Some "interactive" |},
        Some stored)) /\
    (is_Some header ->
       new_Interactive body header footer (Some (OfActionCatalog a)) =
         (Throw "Interactive must not have a header component if action is a single product",
          Some (OfActionCatalog a))).
Proof.
  intros Hcatalog Hproduct.
  exists {| Product_product_retailer_id := product_retailer_id |}.
  exists {| ActionCatalog_catalog_id := catalog_id;
            ActionCatalog_product_retailer_id := Some product_retailer_id;
            ActionCatalog_sections := None;
            ActionCatalog_tag := Some "product" |}.
  split; [apply new_Product_Ok, Hproduct|].
  apply truthy_nonempty in Hcatalog.
  split; [unfold new_ActionCatalog; rewrite Hcatalog; reflexivity|].
  split.
  - reflexivity.
  - intros [h ->]. reflexivity.
Qed.

Lemma X16_single_product_message_witness :
  exists p a,
    new_Product "sku1" = Ok p /\
    new_ActionCatalog DefinedFields "cat1" [AProduct p] = Ok a /\
    is_ok (fst (new_Interactive None None None (Some (OfActionCatalog a))))
      = true.
Proof.
  destruct (X16_single_product_message DefinedFields "cat1" "sku1"
              None None None)
    as (p & a & Hp & Ha & Hi & _); [discriminate|discriminate|].
  exists p, a. split; [exact Hp|]. split; [exact Ha|].
  rewrite Hi. reflexivity.
Defined.

Lemma new_Header_type (object : HeaderObject) (h : Header) :
  fst (new_Header (Some object)) = Ok h ->
  exists tag,
    HeaderObject_tag object = Some tag /\ h !! "type" = Some (HString tag).
Proof.
  intros Hbuilt.
  destruct (HeaderObject_tag object) as [tag|] eqn:Htag; cycle 1.
  { rewrite new_Header_no_tag in Hbuilt by (left; exact Htag).
    discriminate Hbuilt. }
  destruct (decide (tag ∈ header_types)) as [Hin|Hout]; cycle 1.
  { destruct (new_Header_rejected_tag object) as [Hfail _].
    - intros tag' Htag'. rewrite Htag in Htag'. injection Htag' as <-.
      exact Hout.
    - rewrite Hbuilt in Hfail. discriminate Hfail. }
  pose proof (header_type_not_type tag Hin) as Hne.
  exists tag. split; [reflexivity|].
  destruct object as [t|m]; simpl in Htag.
  - rewrite (new_Header_text t tag Htag Hin) in Hbuilt. simpl in Hbuilt.
    destruct (longer_than (Text_body t) 60); [discriminate Hbuilt|].
    injection Hbuilt as <-.
    rewrite lookup_insert_ne by exact Hne. apply lookup_singleton_eq.
  - rewrite (new_Header_media m tag Htag Hin) in Hbuilt. simpl in Hbuilt.
    destruct (bool_decide _); [discriminate Hbuilt|].
    injection Hbuilt as <-.
    rewrite lookup_insert_ne by exact Hne. apply lookup_singleton_eq.
Qed.

(** X17.  Where a Header built by Header can go, a body being given.  With an
    action of discriminant "button" it is always accepted; with "list" or
    "product_list", exactly when it was built from an object of discriminant
    "text"; with "product", never. *)
Theorem X17_built_header_in_Interactive (object : HeaderObject) (h : Header)
    (action : Action) (tag : string) (body : Body) (footer : option Footer) :
  fst (new_Header (Some object)) = Ok h ->
  Action_tag action = Some tag ->
  let built :=
    is_ok (fst (new_Interactive (Some body) (Some h) footer (Some action))) in
  (tag = "button" -> built = true) /\
  (tag = "list" \/ tag = "product_list" ->
     (built = true <-> HeaderObject_tag object = Some "text")) /\
  (tag = "product" -> built = false).
Proof.
  intros Hheader Htag. cbv zeta.
  destruct (new_Header_type object h Hheader) as (kind & Hkind & Htype).
  assert (Htext : header_type_is_not_text (Some h) = false
                  <-> HeaderObject_tag object = Some "text").
  { unfold header_type_is_not_text. rewrite Htype, Hkind.
    rewrite negb_false_iff, String.eqb_eq. split; congruence. }
  split; [|split].
  - intros ->.
    rewrite (new_Interactive_cases _ _ _ _ "button" Htag eq_refl).
    destruct (header_type_is_not_text (Some h)); reflexivity.
  - intros [-> | ->];
      [rewrite (new_Interactive_cases _ _ _ _ "list" Htag eq_refl)
      |rewrite (new_Interactive_cases _ _ _ _ "product_list" Htag eq_refl)];
      rewrite <- Htext;
      destruct (header_type_is_not_text (Some h)); simpl;
      split; congruence.
  - intros ->.
    rewrite (new_Interactive_cases _ _ _ _ "product" Htag eq_refl).
    reflexivity.
Qed.

Lemma X17_built_header_in_Interactive_witness :
  is_ok (fst (new_Interactive (Some pick_one) (Some text_header) None
                (Some product_list_action))) = true.
Proof.
  destruct (X17_built_header_in_Interactive (OfText hi_text) text_header
              product_list_action "product_list" pick_one None eq_refl eq_refl)
    as (_ & Text & _).
  apply Text; [right; reflexivity|reflexivity].
Defined.

(** * Properties of the client *)

(** ** The constructor *)

Lemma as_string_Some (v : JsValue) (s : string) :
  as_string v = Some s <-> v = JsString s.
Proof. destruct v; simpl; split; congruence. Qed.

Lemma is_function_true (v : JsValue) :
  is_function v = true <-> exists f, v = JsFunction f.
Proof.
  destruct v; simpl; split; try discriminate; eauto;
    intros [f E]; discriminate E.
Qed.

(** X18.  The client is built exactly when the token is a string; the app
    secret is a string, unless [secure] is given and falsy; [ponyfill] is a
    function, or is not given while the global [fetch] is a function; and the
    version is a string or is not given.  Only [undefined] counts as not
    given: [null] takes no default. *)
Theorem X18_client_is_built_iff (global_fetch : option JsValue)
    (options : Options) :
  returns (new_WhatsAppAPI global_fetch options) = true <->
  (exists token, Options_token options = JsString token) /\
  (Options_secure options = JsUndefined \/
   to_boolean (Options_secure options) = true ->
   exists appSecret, Options_appSecret options = JsString appSecret) /\
  ((exists f, Options_ponyfill options = JsFunction f) \/
   (Options_ponyfill options = JsUndefined /\
    exists f, global_fetch = Some (JsFunction f))) /\
  (Options_v options = JsUndefined \/
   exists v, Options_v options = JsString v).
Proof.
  destruct options as [token appSecret webhookVerifyToken v parsed secure
                         ponyfill].
  unfold new_WhatsAppAPI. simpl.
  assert (Hsecure : to_boolean (or_default secure (JsBoolean true)) = true
                    <-> secure = JsUndefined \/ to_boolean secure = true).
  { destruct secure; simpl; intuition congruence. }
  assert (Hv : is_Some (as_string (or_default v (JsString "v16.0")))
               <-> v = JsUndefined \/ exists s, v = JsString s).
  { destruct v; simpl; split; eauto;
      try (intros [s E]; discriminate E);
      intros [E|[s' E]]; discriminate E. }
  assert (Hponyfill :
            (exists p, or_global ponyfill global_fetch = Some p /\
                       is_function p = true)
            <-> (exists f, ponyfill = JsFunction f) \/
                (ponyfill = JsUndefined /\
                 exists f, global_fetch = Some (JsFunction f))).
  { split.
    - intros (p & Hp & Hf). apply is_function_true in Hf.
      destruct Hf as [f ->].
      destruct ponyfill; simpl in Hp; try congruence.
      + right. split; [reflexivity|]. exists f. exact Hp.
      + left. eauto.
    - intros [[f ->]|[-> [f ->]]]; eexists; split; reflexivity. }
  rewrite <- Hsecure, <- Hv, <- Hponyfill. clear Hsecure Hv Hponyfill.
  split.
  - destruct (or_global ponyfill global_fetch) as [p|]; [|discriminate].
    destruct (as_string token) as [t|] eqn:Htoken; [|discriminate].
    apply as_string_Some in Htoken.
    destruct (to_boolean (or_default secure (JsBoolean true))).
    + destruct (as_string appSecret) as [a|] eqn:Hsecret; [|discriminate].
      apply as_string_Some in Hsecret.
      destruct (is_function p) eqn:Hp; [|discriminate].
      destruct (as_string (or_default v (JsString "v16.0"))) as [ver|];
        [|discriminate].
      intros _. split; [eauto|]. split; [eauto|].
      split; [exists p; split; [reflexivity|exact Hp]|eexists; reflexivity].
    + destruct (is_function p) eqn:Hp; [|discriminate].
      destruct (as_string (or_default v (JsString "v16.0"))) as [ver|];
        [|discriminate].
      intros _. split; [eauto|]. split; [discriminate|].
      split; [exists p; split; [reflexivity|exact Hp]|eexists; reflexivity].
  - intros ((t & ->) & Hs & (p & -> & Hp) & [ver Hver]). simpl.
    rewrite Hp, Hver.
    destruct (to_boolean (or_default secure (JsBoolean true)));
      [destruct (Hs eq_refl) as [a ->]|]; reflexivity.
Qed.

Lemma X18_client_is_built_iff_witness :
  returns (new_WhatsAppAPI (Some some_fetch)
             {| Options_token := JsString "token";
                Options_appSecret := JsUndefined;
                Options_webhookVerifyToken := JsUndefined;
                Options_v := JsUndefined;
                Options_parsed := JsUndefined;
                Options_secure := JsNull;
                Options_ponyfill := JsUndefined |}) = true.
Proof.
  apply X18_client_is_built_iff. simpl.
  split; [eauto|].
  split; [intros [E|E]; discriminate E|].
  split; [right; split; [reflexivity|eexists; reflexivity]|].
  left. reflexivity.
Defined.

(** The instance that the constructor returns. *)
Lemma new_WhatsAppAPI_Returns (global_fetch : option JsValue)
    (options : Options) (api : WhatsAppAPI) :
  new_WhatsAppAPI global_fetch options = Returns api ->
  let secure :=
    to_boolean (or_default (Options_secure options) (JsBoolean true)) in
  exists token ponyfill v,
    Options_token options = JsString token /\
    or_global (Options_ponyfill options) global_fetch = Some ponyfill /\
    is_function ponyfill = true /\
    as_string (or_default (Options_v options) (JsString "v16.0")) = Some v /\
    (secure = true -> is_Some (as_string (Options_appSecret options))) /\
    api = {| WhatsAppAPI_token := token;
             WhatsAppAPI_appSecret :=
               if secure then as_string (Options_appSecret options) else None;
             WhatsAppAPI_webhookVerifyToken :=
               as_string (Options_webhookVerifyToken options);
             WhatsAppAPI_v := v;
             WhatsAppAPI_fetch := ponyfill;
             WhatsAppAPI_parsed :=
               to_boolean (or_default (Options_parsed options) (JsBoolean true));
             WhatsAppAPI_secure := secure |}.
Proof.
  unfold new_WhatsAppAPI. cbv zeta.
  destruct (or_global (Options_ponyfill options) global_fetch) as [p|];
    [|discriminate].
  destruct (as_string (Options_token options)) as [t|] eqn:Htoken;
    [|discriminate].
  apply as_string_Some in Htoken.
  destruct (to_boolean (or_default (Options_secure options) (JsBoolean true))).
  - destruct (as_string (Options_appSecret options)) as [a|]; [|discriminate].
    destruct (is_function p) eqn:Hp; [|discriminate]. simpl.
    destruct (as_string (or_default (Options_v options) (JsString "v16.0")))
      as [ver|]; [|discriminate].
    intros [= <-]. exists t, p, ver. repeat split; eauto.
  - destruct (is_function p) eqn:Hp; [|discriminate]. simpl.
    destruct (as_string (or_default (Options_v options) (JsString "v16.0")))
      as [ver|]; [|discriminate].
    intros [= <-]. exists t, p, ver. repeat split; eauto. discriminate.
Qed.

Lemma to_boolean_default_true (v : JsValue) :
  to_boolean (or_default v (JsBoolean true)) = true <->
  v = JsUndefined \/ to_boolean v = true.
Proof. destruct v; simpl; intuition congruence. Qed.

(** X19.  What the client holds once built.  It is secure unless [secure]
    was given and falsy, and parses the answers unless [parsed] was given and
    falsy.  A secure client holds the app secret it was given; one that is not
    secure holds none, whatever was given.  It holds a webhook verify token
    exactly when a string was given for it, the version given or "v16.0", and
    a function to fetch with. *)
Theorem X19_client_built_shape (global_fetch : option JsValue)
    (options : Options) (api : WhatsAppAPI) :
  new_WhatsAppAPI global_fetch options = Returns api ->
  Options_token options = JsString (WhatsAppAPI_token api) /\
  (WhatsAppAPI_secure api = true <->
     Options_secure options = JsUndefined \/
     to_boolean (Options_secure options) = true) /\
  (WhatsAppAPI_secure api = true ->
     exists appSecret,
       WhatsAppAPI_appSecret api = Some appSecret /\
       Options_appSecret options = JsString appSecret) /\
  (WhatsAppAPI_secure api = false -> WhatsAppAPI_appSecret api = None) /\
  (forall token,
     WhatsAppAPI_webhookVerifyToken api = Some token <->
     Options_webhookVerifyToken options = JsString token) /\
  (Options_v options = JsUndefined /\ WhatsAppAPI_v api = "v16.0" \/
   Options_v options = JsString (WhatsAppAPI_v api)) /\
  (WhatsAppAPI_parsed api = true <->
     Options_parsed options = JsUndefined \/
     to_boolean (Options_parsed options) = true) /\
  (exists f, WhatsAppAPI_fetch api = JsFunction f).
Proof.
  intros Hbuilt. apply new_WhatsAppAPI_Returns in Hbuilt. cbv zeta in Hbuilt.
  destruct Hbuilt as (token & p & ver & Htoken & _ & Hp & Hver & Hsecret & ->).
  simpl.
  split; [exact Htoken|].
  split; [apply to_boolean_default_true|].
  split.
  { intros Hs. destruct (Hsecret Hs) as [a Ha]. exists a.
    rewrite Hs. split; [exact Ha|]. apply as_string_Some, Ha. }
  split; [intros ->; reflexivity|].
  split; [intros t; apply as_string_Some|].
  split.
  { destruct (Options_v options); simpl in Hver; try discriminate Hver.
    - left. injection Hver as <-. split; reflexivity.
    - right. injection Hver as <-. reflexivity. }
  split; [apply to_boolean_default_true|].
  apply is_function_true, Hp.
Qed.

Lemma X19_client_built_shape_witness :
  WhatsAppAPI_secure secure_client = true /\
  WhatsAppAPI_appSecret secure_client = Some "secret".
Proof.
  destruct (X19_client_built_shape (Some some_fetch)
              {| Options_token := JsString "token";
                 Options_appSecret := JsString "secret";
                 Options_webhookVerifyToken := JsString "verify";
                 Options_v := JsUndefined;
                 Options_parsed := JsUndefined;
                 Options_secure := JsUndefined;
                 Options_ponyfill := JsUndefined |}
              secure_client eq_refl)
    as (_ & Hsecure & Hsecret & _).
  assert (Hs : WhatsAppAPI_secure secure_client = true)
    by (apply Hsecure; left; reflexivity).
  split; [exact Hs|].
  destruct (Hsecret Hs) as (a & Ha & [= <-]). exact Ha.
Defined.

(** ** The webhooks *)

Lemma split_on_nonempty (sep : ascii) (s : string) : split_on sep s <> [].
Proof.
  destruct s as [|c s]; simpl; [discriminate|].
  destruct (Ascii.eqb c sep); [discriminate|].
  destruct (split_on sep s); discriminate.
Qed.

(** A string in which the separator does not occur is one piece. *)
Lemma split_on_without (sep : ascii) (s : string) :
  contains sep s = false -> split_on sep s = [s].
Proof.
  induction s as [|c s IH]; simpl; [reflexivity|].
  intros H. apply orb_false_iff in H. destruct H as [Hc Hs].
  rewrite Hc, (IH Hs). reflexivity.
Qed.

(** The first piece ends at the first occurrence of the separator. *)
Lemma split_on_first (sep : ascii) (pre rest : string) :
  contains sep pre = false ->
  split_on sep (pre ++ String sep rest) = pre :: split_on sep rest.
Proof.
  induction pre as [|c pre IH]; simpl.
  - intros _. rewrite Ascii.eqb_refl. reflexivity.
  - intros H. apply orb_false_iff in H. destruct H as [Hc Hpre].
    rewrite Hc, (IH Hpre). reflexivity.
Qed.

Lemma contains_app (c : ascii) (s t : string) :
  contains c (s ++ t) = contains c s || contains c t.
Proof.
  induction s as [|d s IH]; simpl; [reflexivity|].
  rewrite IH. apply orb_assoc.
Qed.

(** The second piece of a signature. *)
Lemma second_piece (label digest rest : string) :
  contains "=" label = false -> contains "=" digest = false ->
  split_on "=" (label ++ "=" ++ digest) !! 1 = Some digest /\
  split_on "=" (label ++ "=" ++ digest ++ "=" ++ rest) !! 1 = Some digest.
Proof.
  intros Hlabel Hdigest.
  change ("=" ++ digest) with (String "=" digest).
  change ("=" ++ digest ++ "=" ++ rest)
    with (String "=" (digest ++ String "=" rest)).
  rewrite !(split_on_first _ _ _ Hlabel), (split_on_first _ _ _ Hdigest),
    (split_on_without _ _ Hdigest).
  split; reflexivity.
Qed.

Section WebhookProperties.

Variables PostData GetParams Message Status : Type.
Variable createHmac_sha256_hex : string -> BinaryLike -> string.
Variable requests_post : PostData -> list (Message + Status) * outcome nat.
Variable requests_get : GetParams -> string -> outcome string.

Lemma post_not_secure (this : WhatsAppAPI) (request : PostData)
    (signature : option string) (rawBody : option BinaryLike) :
  WhatsAppAPI_secure this = false ->
  post PostData Message Status createHmac_sha256_hex requests_post
    this request signature rawBody = handed_on PostData Message Status requests_post request.
Proof.
  intros Hsecure. unfold post, handed_on. rewrite Hsecure.
  destruct (requests_post request). reflexivity.
Qed.

(** The method [post] of a secure client, check by check. *)
Lemma post_secure (this : WhatsAppAPI) (request : PostData)
    (signature : option string) (rawBody : option BinaryLike) :
  WhatsAppAPI_secure this = true ->
  post PostData Message Status createHmac_sha256_hex requests_post
    this request signature rawBody =
    match signature, rawBody with
    | Some sig, Some body =>
        if negb (truthy sig) || negb (BinaryLike_truthy body)
        then ([], Throws (Number 400))
        else match WhatsAppAPI_appSecret this with
             | Some secret =>
                 if negb (truthy secret) then ([], Throws (Number 500))
                 else if bool_decide
                           (split_on "=" sig !! 1
                            = Some (createHmac_sha256_hex secret body))
                 then handed_on PostData Message Status requests_post request
                 else ([], Throws (Number 400))
             | None => ([], Throws (Number 500))
             end
    | _, _ => ([], Throws (Number 400))
    end.
Proof.
  intros Hsecure. unfold post, handed_on. rewrite Hsecure.
  destruct (requests_post request) as [calls result].
  destruct signature as [sig|], rawBody as [body|]; try reflexivity.
  destruct (_ || _); [reflexivity|].
  destruct (WhatsAppAPI_appSecret this) as [secret|]; [|reflexivity].
  destruct (negb (truthy secret)); [reflexivity|].
  destruct (bool_decide _); reflexivity.
Qed.

(** X20.  A secure client hands a request on exactly when a non-empty
    signature and a body are given, the client holds a non-empty app secret,
    and the piece of the signature between its first and its second "=" is the
    digest of the body under that secret.  Otherwise it emits nothing and
    throws 400, or 500 when signature and body are given and the app secret is
    missing or empty. *)
Theorem X20_post_of_secure_client (this : WhatsAppAPI) (request : PostData)
    (signature : option string) (rawBody : option BinaryLike) :
  WhatsAppAPI_secure this = true ->
  let signed :=
    exists sig body secret,
      signature = Some sig /\ sig <> "" /\
      rawBody = Some body /\ BinaryLike_truthy body = true /\
      WhatsAppAPI_appSecret this = Some secret /\ secret <> "" /\
      split_on "=" sig !! 1 = Some (createHmac_sha256_hex secret body) in
  let given :=
    exists sig body,
      signature = Some sig /\ sig <> "" /\
      rawBody = Some body /\ BinaryLike_truthy body = true in
  let result :=
    post PostData Message Status createHmac_sha256_hex requests_post
      this request signature rawBody in
  (signed -> result = handed_on PostData Message Status requests_post request) /\
  (~ signed -> ~ given -> result = ([], Throws (Number 400))) /\
  (~ signed -> given ->
     (WhatsAppAPI_appSecret this = None \/
      WhatsAppAPI_appSecret this = Some "" ->
      result = ([], Throws (Number 500))) /\
     (forall secret, WhatsAppAPI_appSecret this = Some secret ->
      secret <> "" -> result = ([], Throws (Number 400)))).
Proof.
  intros Hsecure. cbv zeta. rewrite (post_secure _ _ _ _ Hsecure).
  split; [|split].
  - intros (sig & body & secret & -> & Hsig & -> & Hbody & -> & Hsecret & Hpiece).
    apply truthy_nonempty in Hsig, Hsecret.
    rewrite Hsig, Hbody, Hsecret. simpl.
    rewrite (bool_decide_eq_true_2 _ Hpiece). reflexivity.
  - intros _ Hgiven.
    destruct signature as [sig|], rawBody as [body|]; try reflexivity.
    destruct (truthy sig) eqn:Hsig; [|reflexivity].
    destruct (BinaryLike_truthy body) eqn:Hbody; [|reflexivity].
    exfalso. apply Hgiven. exists sig, body.
    apply truthy_nonempty in Hsig. auto.
  - intros Hunsigned (sig & body & -> & Hsig & -> & Hbody).
    pose proof Hsig as Hsig'. apply truthy_nonempty in Hsig'.
    rewrite Hsig', Hbody. simpl. split.
    + intros [-> | ->]; reflexivity.
    + intros secret Hheld Hsecret.
      pose proof Hsecret as Hsecret'. apply truthy_nonempty in Hsecret'.
      rewrite Hheld, Hsecret'. simpl.
      destruct (bool_decide _) eqn:Hpiece; [|reflexivity].
      apply bool_decide_eq_true_1 in Hpiece.
      exfalso. apply Hunsigned. exists sig, body, secret.
      repeat split; assumption.
Qed.

(** X21.  Only the second piece of the signature counts.  With a digest in
    which "=" does not occur, as in every hexadecimal digest, a secure client
    with a non-empty app secret takes a signature made of any text without
    "=", then "=", then the digest, and takes it as well when "=" and anything
    at all follow the digest; it refuses with 400 every signature in which "="
    does not occur, the bare digest among them. *)
Theorem X21_post_reads_second_piece (this : WhatsAppAPI) (request : PostData)
    (body : BinaryLike) (secret label rest : string) :
  WhatsAppAPI_secure this = true ->
  WhatsAppAPI_appSecret this = Some secret -> secret <> "" ->
  BinaryLike_truthy body = true ->
  let digest := createHmac_sha256_hex secret body in
  let result signature :=
    post PostData Message Status createHmac_sha256_hex requests_post
      this request (Some signature) (Some body) in
  contains "=" digest = false -> contains "=" label = false ->
  result (label ++ "=" ++ digest) = handed_on PostData Message Status requests_post request /\
  result (label ++ "=" ++ digest ++ "=" ++ rest) = handed_on PostData Message Status requests_post request /\
  (forall signature, contains "=" signature = false ->
     result signature = ([], Throws (Number 400))).
Proof.
  intros Hsecure Hsecret Hne Hbody. cbv zeta. intros Hdigest Hlabel.
  apply truthy_nonempty in Hne.
  assert (Htruthy : forall s, truthy (label ++ "=" ++ s) = true)
    by (intros s; destruct label; reflexivity).
  destruct (second_piece label (createHmac_sha256_hex secret body) rest
              Hlabel Hdigest) as [Hshort Hlong].
  split; [|split].
  - rewrite (post_secure _ _ _ _ Hsecure), Hsecret, Htruthy, Hbody, Hne.
    cbn [negb orb]. rewrite (bool_decide_eq_true_2 _ Hshort). reflexivity.
  - rewrite (post_secure _ _ _ _ Hsecure), Hsecret, Htruthy, Hbody, Hne.
    cbn [negb orb]. rewrite (bool_decide_eq_true_2 _ Hlong). reflexivity.
  - intros signature Hnone.
    rewrite (post_secure _ _ _ _ Hsecure), Hsecret, Hbody, Hne.
    destruct (truthy signature); [|reflexivity]. simpl.
    rewrite (split_on_without _ _ Hnone).
    rewrite bool_decide_eq_false_2 by (simpl; discriminate). reflexivity.
Qed.

(** X22.  A client that is not secure checks nothing: whatever the signature
    and the body, absent or wrong, the request is handed on, and the events
    and the result are those of [post] of [./requests]. *)
Theorem X22_post_of_open_client (this : WhatsAppAPI) (request : PostData)
    (signature : option string) (rawBody : option BinaryLike) :
  WhatsAppAPI_secure this = false ->
  post PostData Message Status createHmac_sha256_hex requests_post
    this request signature rawBody = handed_on PostData Message Status requests_post request /\
  Forall (fun event => fst event = "message" \/ fst event = "status")
    (fst (handed_on PostData Message Status requests_post request)) /\
  length (fst (handed_on PostData Message Status requests_post request)) = length (fst (requests_post request)).
Proof.
  intros Hsecure. split; [apply post_not_secure, Hsecure|].
  unfold handed_on. simpl. split; [|apply length_map].
  apply Forall_map, Forall_forall. intros [message|status] _; simpl; auto.
Qed.

(** X23.  The constructor accepts an empty app secret, and the client built
    with it and left secure hands on no request at all: every call of [post]
    emits nothing and throws 400 or 500. *)
Theorem X23_empty_secret_blocks_post (global_fetch : option JsValue)
    (options : Options) (api : WhatsAppAPI) (request : PostData)
    (signature : option string) (rawBody : option BinaryLike) :
  new_WhatsAppAPI global_fetch options = Returns api ->
  Options_appSecret options = JsString "" ->
  WhatsAppAPI_secure api = true ->
  let result :=
    post PostData Message Status createHmac_sha256_hex requests_post
      api request signature rawBody in
  result = ([], Throws (Number 400)) \/ result = ([], Throws (Number 500)).
Proof.
  intros Hbuilt Hempty Hsecure. cbv zeta.
  rewrite (post_secure _ _ _ _ Hsecure).
  apply new_WhatsAppAPI_Returns in Hbuilt. cbv zeta in Hbuilt.
  destruct Hbuilt as (token & p & ver & _ & _ & _ & _ & _ & ->).
  simpl in Hsecure |- *. rewrite Hsecure, Hempty. simpl.
  destruct signature as [sig|], rawBody as [body|]; auto.
  destruct (_ || _); auto.
Qed.

(** X24.  The client answers the verification of the webhook only if it was
    built with a verify token that is a non-empty string: [get] then hands the
    request and that token on to [get] of [./requests]; built with no token,
    with an empty one or with a value that is not a string, it throws 500 for
    every request. *)
Theorem X24_get_needs_the_token (global_fetch : option JsValue)
    (options : Options) (api : WhatsAppAPI) (request : GetParams) :
  new_WhatsAppAPI global_fetch options = Returns api ->
  (forall token,
     Options_webhookVerifyToken options = JsString token -> token <> "" ->
     get GetParams requests_get api request = requests_get request token) /\
  ((forall token, Options_webhookVerifyToken options = JsString token ->
      token = "") ->
   get GetParams requests_get api request = Throws (Number 500)).
Proof.
  intros Hbuilt.
  apply new_WhatsAppAPI_Returns in Hbuilt. cbv zeta in Hbuilt.
  destruct Hbuilt as (token & p & ver & _ & _ & _ & _ & _ & ->).
  unfold get. simpl. split.
  - intros t -> Hne. apply truthy_nonempty in Hne. simpl. rewrite Hne.
    reflexivity.
  - intros Hnone.
    destruct (as_string (Options_webhookVerifyToken options)) as [t|] eqn:Ht;
      [|reflexivity].
    apply as_string_Some in Ht. rewrite (Hnone t Ht). reflexivity.
Qed.

End WebhookProperties.

Lemma X20_post_of_secure_client_witness :
  post string string unit fixed_digest echo_post secure_client "hello"
    (Some "sha256=0f3a") (Some (BinaryString "{}"))
  = ([("message", inl "hello")], Returns 200).
Proof.
  destruct (X20_post_of_secure_client string string unit fixed_digest echo_post
              secure_client "hello" (Some "sha256=0f3a")
              (Some (BinaryString "{}")) eq_refl) as [Signed _].
  rewrite Signed; [reflexivity|].
  exists "sha256=0f3a", (BinaryString "{}"), "secret".
  repeat split; (reflexivity || discriminate).
Defined.

Lemma X21_post_reads_second_piece_witness :
  post string string unit fixed_digest echo_post secure_client "hello"
    (Some "md5=0f3a=anything") (Some (BinaryString "{}"))
  = ([("message", inl "hello")], Returns 200) /\
  post string string unit fixed_digest echo_post secure_client "hello"
    (Some "0f3a") (Some (BinaryString "{}"))
  = ([], Throws (Number 400)).
Proof.
  destruct (X21_post_reads_second_piece string string unit fixed_digest
              echo_post secure_client "hello" (BinaryString "{}") "secret"
              "md5" "anything" eq_refl eq_refl ltac:(discriminate) eq_refl
              eq_refl eq_refl) as (_ & Long & Bare).
  split; [exact Long|]. apply Bare. reflexivity.
Defined.

Lemma X22_post_of_open_client_witness :
  post string string unit fixed_digest echo_post open_client "hello" None None
  = ([("message", inl "hello")], Returns 200).
Proof.
  destruct (X22_post_of_open_client string string unit fixed_digest echo_post
              open_client "hello" None None eq_refl) as [Open _].
  rewrite Open. reflexivity.
Defined.

Lemma X23_empty_secret_blocks_post_witness :
  new_WhatsAppAPI (Some some_fetch) empty_secret_options
    = Returns empty_secret_client /\
  post string string unit fixed_digest echo_post empty_secret_client "hello"
    (Some "sha256=0f3a") (Some (BinaryString "{}"))
  = ([], Throws (Number 500)).
Proof.
  split; [reflexivity|].
  destruct (X23_empty_secret_blocks_post string string unit fixed_digest
              echo_post (Some some_fetch) empty_secret_options
              empty_secret_client "hello" (Some "sha256=0f3a")
              (Some (BinaryString "{}")) eq_refl eq_refl eq_refl) as [E|E].
  - discriminate E.
  - exact E.
Defined.

Lemma X24_get_needs_the_token_witness :
  get unit echo_get secure_client tt = Returns "verify" /\
  get unit echo_get empty_secret_client tt = Throws (Number 500).
Proof.
  split.
  - destruct (X24_get_needs_the_token unit echo_get (Some some_fetch)
                {| Options_token := JsString "token";
                   Options_appSecret := JsString "secret";
                   Options_webhookVerifyToken := JsString "verify";
                   Options_v := JsUndefined;
                   Options_parsed := JsUndefined;
                   Options_secure := JsUndefined;
                   Options_ponyfill := JsUndefined |}
                secure_client tt eq_refl) as [Token _].
    rewrite (Token "verify" eq_refl); [reflexivity|discriminate].
  - destruct (X24_get_needs_the_token unit echo_get (Some some_fetch)
                empty_secret_options empty_secret_client tt eq_refl)
      as [_ NoToken].
    apply NoToken. intros token E. discriminate E.
Defined.

(** ** Uploading a media *)

(** The table of limits lists the valid types in their order, and gives for
    each the own property of [validMediaSizes] that the method reads. *)
Lemma media_limits_types : map fst media_limits = validMediaTypes.
Proof. reflexivity. Qed.

Lemma media_limits_sound (type : string) (limit : N) :
  (type, limit) ∈ media_limits ->
  truthy type = true /\ type ∈ validMediaTypes /\
  validMediaSizes_at (mediaType_of type) = Some (OwnSize limit).
Proof.
  assert (Hall : forallb
                   (fun row =>
                      truthy (fst row)
                      && bool_decide (fst row ∈ validMediaTypes)
                      && match validMediaSizes_at (mediaType_of (fst row)) with
                         | Some (OwnSize l) => N.eqb l (snd row)
                         | _ => false
                         end) media_limits = true)
    by (vm_compute; reflexivity).
  rewrite forallb_forall in Hall.
  intros Hin. apply list_elem_of_In, Hall in Hin. simpl in Hin.
  apply andb_true_iff in Hin. destruct Hin as [Hin Hsize].
  apply andb_true_iff in Hin. destruct Hin as [Htruthy Hvalid].
  split; [exact Htruthy|].
  split; [apply bool_decide_eq_true_1 in Hvalid; exact Hvalid|].
  destruct (validMediaSizes_at (mediaType_of type)) as [[l|]|];
    try discriminate Hsize.
  apply N.eqb_eq in Hsize. subst l. reflexivity.
Qed.

Lemma media_limits_complete (type : string) :
  type ∈ validMediaTypes -> exists limit, (type, limit) ∈ media_limits.
Proof.
  rewrite <- media_limits_types. change (map fst media_limits)
    with (fst <$> media_limits).
  rewrite list_elem_of_fmap. intros ([t limit] & -> & Hin).
  exists limit. exact Hin.
Qed.

(** The checks on a file that has a type. *)
Lemma check_file_listed (file : Blob) (limit : N) :
  (Blob_type file, limit) ∈ media_limits ->
  check_file (EntryBlob file) =
    if negb (N.eqb (Blob_size file) 0) && N.ltb limit (Blob_size file)
    then Throws (Error ("File is too big ("
                        ++ pretty (Blob_size file) ++ " bytes) for a "
                        ++ mediaType_of (Blob_type file) ++ " ("
                        ++ pretty limit ++ " bytes limit)"))
    else Returns tt.
Proof.
  intros Hin. destruct (media_limits_sound _ _ Hin) as (Htruthy & Hvalid & Hat).
  unfold check_file.
  rewrite Htruthy, (bool_decide_eq_true_2 _ Hvalid), Hat. reflexivity.
Qed.

Lemma check_file_unlisted (file : Blob) :
  Blob_type file <> "" -> Blob_type file ∉ validMediaTypes ->
  check_file (EntryBlob file)
    = Throws (Error ("Invalid media type: " ++ Blob_type file)).
Proof.
  intros Hne Hout. apply truthy_nonempty in Hne. unfold check_file.
  rewrite Hne, (bool_decide_eq_false_2 _ Hout). reflexivity.
Qed.

Lemma uploadMedia_checked (this : WhatsAppAPI) (phoneID : string)
    (get : string -> FormEntry) (check : option bool) :
  phoneID <> "" -> default true check = true ->
  uploadMedia this phoneID (FormWithGet get) check =
    match check_file (get "file") with
    | Throws e => Throws e
    | Returns _ => Returns (upload_of this phoneID (FormWithGet get))
    end.
Proof.
  intros Hne Hcheck. apply truthy_nonempty in Hne.
  unfold uploadMedia. rewrite Hne, Hcheck. reflexivity.
Qed.

(** X25.  With the checks on, a FormData whose file is a Blob is uploaded
    exactly when the type of the Blob is one of the 18 of the table and its
    size is at most the limit the table gives for that type: 16 000 000 bytes
    for an audio or a video, 100 000 000 for a text or an application,
    5 000 000 for a JPEG or a PNG, and 500 000 for a WebP, which counts as a
    sticker and not as an image. *)
Theorem X25_upload_limits (this : WhatsAppAPI) (phoneID : string)
    (get : string -> FormEntry) (file : Blob) (check : option bool) :
  phoneID <> "" -> default true check = true ->
  get "file" = EntryBlob file ->
  (returns (uploadMedia this phoneID (FormWithGet get) check) = true <->
   exists limit,
     (Blob_type file, limit) ∈ media_limits /\ (Blob_size file <= limit)%N) /\
  (forall call,
     uploadMedia this phoneID (FormWithGet get) check = Returns call ->
     call = upload_of this phoneID (FormWithGet get)).
Proof.
  intros Hne Hcheck Hfile.
  rewrite (uploadMedia_checked _ _ _ _ Hne Hcheck), Hfile.
  split.
  - split.
    + intros Hok.
      destruct (decide (Blob_type file ∈ validMediaTypes)) as [Hin|Hout].
      * destruct (media_limits_complete _ Hin) as [limit Hlimit].
        exists limit. split; [exact Hlimit|].
        rewrite (check_file_listed _ _ Hlimit) in Hok.
        destruct (N.eqb_spec (Blob_size file) 0) as [->|_];
          [apply N.le_0_l|].
        destruct (N.ltb_spec limit (Blob_size file)) as [_|Hle];
          [discriminate Hok|exact Hle].
      * unfold check_file in Hok.
        destruct (truthy (Blob_type file)); [|discriminate Hok].
        rewrite (bool_decide_eq_false_2 _ Hout) in Hok. discriminate Hok.
    + intros (limit & Hlimit & Hle).
      rewrite (check_file_listed _ _ Hlimit).
      apply N.ltb_ge in Hle. rewrite Hle, andb_false_r. reflexivity.
  - intros call. destruct (check_file (EntryBlob file)); [|discriminate].
    intros [= <-]. reflexivity.
Qed.

Lemma X25_upload_limits_witness :
  returns (uploadMedia secure_client "1055"
             (form_of {| Blob_type := "image/webp"; Blob_size := 500000 |})
             None) = true /\
  returns (uploadMedia secure_client "1055"
             (form_of {| Blob_type := "image/webp"; Blob_size := 500001 |})
             None) = false.
Proof.
  split.
  - apply (X25_upload_limits secure_client "1055" _
             {| Blob_type := "image/webp"; Blob_size := 500000 |} None);
      [discriminate|reflexivity|reflexivity|].
    exists 500000%N. split; [|reflexivity].
    apply (bool_decide_eq_true_1 _). vm_compute. reflexivity.
  - vm_compute. reflexivity.
Defined.

(** X26.  With [check] set to [false] nothing of the form is looked at: any
    form that is not falsy is handed on as it is, with the token and the
    version of the client, whether or not it is a FormData and whatever file
    it holds. *)
Theorem X26_upload_unchecked (this : WhatsAppAPI) (phoneID : string)
    (form : FormArgument) :
  phoneID <> "" -> form <> FormFalsy ->
  uploadMedia this phoneID form (Some false)
    = Returns (upload_of this phoneID form).
Proof.
  intros Hne Hform. apply truthy_nonempty in Hne.
  unfold uploadMedia. rewrite Hne.
  destruct form; [contradiction| | | |]; reflexivity.
Qed.

Lemma X26_upload_unchecked_witness :
  uploadMedia secure_client "1055"
    (form_of {| Blob_type := "image/gif"; Blob_size := 900000000 |})
    (Some false)
  = Returns (upload_of secure_client "1055"
               (form_of {| Blob_type := "image/gif";
                           Blob_size := 900000000 |})).
Proof.
  apply X26_upload_unchecked; discriminate.
Defined.

(** X27.  What [uploadMedia] refuses with the checks on, for a phone ID that
    is not empty.  A truthy form that is not an object with a method [get]: a
    TypeError.  A form without an entry "file": the error of the engine for
    reading [type] of [null], and no error of the method.  A file that is a
    string, or a Blob with an empty type: the type is asked for.  A type that
    is not in the list: it is named as invalid.  A Blob of a listed type and
    of a size over its limit (and below 2^53): the size, the kind and the limit
    are reported in decimal. *)
Theorem X27_upload_refusals (this : WhatsAppAPI) (phoneID : string)
    (check : option bool) :
  phoneID <> "" -> default true check = true ->
  (forall form,
     form = FormNotObject \/ form = FormWithoutGet \/
     form = FormGetNotFunction ->
     uploadMedia this phoneID form check
       = Throws (TypeError "File's Form must be an instance of FormData")) /\
  (forall get,
     let result := uploadMedia this phoneID (FormWithGet get) check in
     (get "file" = EntryNull -> result = Throws (NullRead "type")) /\
     (forall s, get "file" = EntryString s ->
        result = Throws (Error "File's Blob must have a type specified")) /\
     (forall file, get "file" = EntryBlob file ->
        (Blob_type file = "" ->
           result = Throws (Error "File's Blob must have a type specified")) /\
        (Blob_type file <> "" -> Blob_type file ∉ validMediaTypes ->
           result
             = Throws (Error ("Invalid media type: " ++ Blob_type file))) /\
        (forall limit,
           (Blob_type file, limit) ∈ media_limits ->
           (limit < Blob_size file < 2 ^ 53)%N ->
           result =
             Throws (Error ("File is too big ("
                            ++ pretty (Blob_size file) ++ " bytes) for a "
                            ++ mediaType_of (Blob_type file) ++ " ("
                            ++ pretty limit ++ " bytes limit)"))))).
Proof.
  intros Hne Hcheck. split.
  - intros form Hform. apply truthy_nonempty in Hne.
    unfold uploadMedia. rewrite Hne, Hcheck.
    destruct Hform as [-> |[-> | ->]]; reflexivity.
  - intros get. cbv zeta.
    rewrite (uploadMedia_checked _ _ _ _ Hne Hcheck).
    split; [intros ->; reflexivity|].
    split; [intros s ->; reflexivity|].
    intros file ->. split; [|split].
    + intros Hempty. unfold check_file. rewrite Hempty. reflexivity.
    + intros Htype Hout. rewrite (check_file_unlisted _ Htype Hout).
      reflexivity.
    + intros limit Hlimit [Hover _]. rewrite (check_file_listed _ _ Hlimit).
      assert (Hpositive : N.eqb (Blob_size file) 0 = false)
        by (apply N.eqb_neq; lia).
      apply N.ltb_lt in Hover. rewrite Hpositive, Hover. reflexivity.
Qed.

Lemma X27_upload_refusals_witness :
  uploadMedia secure_client "1055"
    (form_of {| Blob_type := "image/png"; Blob_size := 5000001 |}) None
  = Throws (Error "File is too big (5000001 bytes) for a image (5000000 bytes limit)").
Proof.
  destruct (X27_upload_refusals secure_client "1055" None) as [_ OnForm];
    [discriminate|reflexivity|].
  destruct (OnForm (fun name => if String.eqb name "file"
                                then EntryBlob {| Blob_type := "image/png";
                                                  Blob_size := 5000001 |}
                                else EntryNull)) as (_ & _ & OnBlob).
  destruct (OnBlob {| Blob_type := "image/png"; Blob_size := 5000001 |}
              eq_refl) as (_ & _ & TooBig).
  unfold form_of. rewrite (TooBig 5000000%N).
  - vm_compute. reflexivity.
  - apply (bool_decide_eq_true_1 _). vm_compute. reflexivity.
  - split; reflexivity.
Defined.

(** ** The text fields, at every length *)

Lemma new_Body_cases (text : string) :
  new_Body text =
    if negb (truthy text) then Throw "Body must have a text object"
    else if longer_than text 1024
    then Throw "Body text must be less than 1024 characters"
    else Ok {| Body_text := text |}.
Proof.
  unfold new_Body, throw_if, rbind. case_checks ltac:(try reflexivity).
Qed.

Lemma new_Footer_cases (text : string) :
  new_Footer text =
    if negb (truthy text) then Throw "Footer must have a text object"
    else if longer_than text 60
    then Throw "Footer text must be 60 characters or less"
    else Ok {| Footer_text := text |}.
Proof.
  unfold new_Footer, throw_if, rbind. case_checks ltac:(try reflexivity).
Qed.

(** X28.  Body is built exactly for a text of 1 to 1024 characters and Footer
    for a text of 1 to 60; either holds the text as given, spaces included:
    nothing is trimmed, and a text of spaces only is taken. *)
Theorem X28_Body_and_Footer_accept (text : string) :
  (is_ok (new_Body text) = true <-> 1 <= String.length text <= 1024) /\
  (forall b, new_Body text = Ok b -> Body_text b = text) /\
  (is_ok (new_Footer text) = true <-> 1 <= String.length text <= 60) /\
  (forall f, new_Footer text = Ok f -> Footer_text f = text).
Proof.
  rewrite new_Body_cases, new_Footer_cases.
  split; [|split; [|split]].
  - rewrite !is_ok_check, negb_false_iff, truthy_length_iff,
      longer_than_false. simpl. tauto.
  - intros b Hb. do 2 apply Ok_check in Hb. injection Hb as <-. reflexivity.
  - rewrite !is_ok_check, negb_false_iff, truthy_length_iff,
      longer_than_false. simpl. tauto.
  - intros f Hf. do 2 apply Ok_check in Hf. injection Hf as <-. reflexivity.
Qed.

Lemma X28_Body_and_Footer_accept_witness :
  is_ok (new_Body "   ") = true /\ new_Footer " " = Ok {| Footer_text := " " |}.
Proof.
  destruct (X28_Body_and_Footer_accept "   ") as (OnBody & _).
  split; [apply OnBody; simpl; lia|].
  destruct (X28_Body_and_Footer_accept " ") as (_ & _ & _ & OnFooter).
  destruct (new_Footer " ") as [[text]|msg] eqn:E; [|discriminate E].
  rewrite <- (OnFooter _ eq_refl). reflexivity.
Defined.

(** X29.  Button is built exactly when the id has 1 to 256 characters and
    neither starts nor ends with a space, and the title has 1 to 20
    characters; it then has the type "reply" and holds the id and the title
    as given. *)
Theorem X29_Button_accepts (id title : string) (b : Button) :
  new_Button id title = Ok b <->
  1 <= String.length id <= 256 /\
  String.get 0 id <> Some " "%char /\
  String.get (String.length id - 1) id <> Some " "%char /\
  1 <= String.length title <= 20 /\
  b = {| Button_type := reply;
         Button_reply := {| Reply_title := title; Reply_id := id |} |}.
Proof.
  rewrite new_Button_Ok. unfold Button_of.
  assert (Hspace : edge_space_test id = false <->
                   String.get 0 id <> Some " "%char /\
                   String.get (String.length id - 1) id <> Some " "%char).
  { pose proof (edge_space_test_get id) as Hget.
    destruct (edge_space_test id); split.
    - discriminate.
    - intros [H0 H1]. destruct (proj1 Hget eq_refl); contradiction.
    - intros _. split; intros E; [assert (true = false) as F by
        (symmetry; apply Hget; left; exact E)|assert (true = false) as F by
        (symmetry; apply Hget; right; exact E)]; discriminate F.
    - reflexivity. }
  rewrite Hspace. tauto.
Qed.

Lemma X29_Button_accepts_witness :
  new_Button "yes" "Yes" = Ok yes_button.
Proof.
  apply (X29_Button_accepts "yes" "Yes" yes_button). simpl.
  split; [lia|]. split; [discriminate|]. split; [discriminate|].
  split; [lia|reflexivity].
Defined.
